(** * legal-reviewer: the Streamlit script [legal_team_fallback.py]

    A shallow embedding of the script and the properties its specification
    states about it.  The script is re-executed from its first line on every
    user interaction; what survives from one execution to the next is the
    session state (the knowledge-base handle and the set of processed
    file names) and the process environment.

    Conventions of the embedding:
    - a Python [str] is a [string] that holds the characters in UTF-8;
      [len] and slicing count characters, not bytes: they are [str_len]
      and [str_slice_to];
    - the Python [set] of processed names is a [gset string];
    - the collaborators the script does not own (temporary files, the PDF
      knowledge base, pypdf, the agents) are the fields of a [world]: each
      call either returns a value or raises an exception;
    - only instances of Python's [Exception] are modelled, which is what
      [except Exception] catches;
    - every call of a collaborator and every element handed to the page is
      recorded, in order, in the [trace] of the run. *)

From stdpp Require Import base strings gmap list pretty.
From Stdlib Require Import ZArith Lia.

Open Scope list_scope.

(** ** Python values *)

(** An exception instance: [exn_message e] is [str(e)], which is what the
    f-strings of the script interpolate. *)
Record exn := Exn { exn_class : string; exn_message : string }.

Inductive result (A : Type) : Type :=
| Ok (a : A)
| Raise (e : exn).
Arguments Ok {A} a.
Arguments Raise {A} e.

(** The newline character of the f-strings. *)
Definition nl : string := String (Ascii.ascii_of_nat 10) "".

(** A character of a [str] is a code point.  In UTF-8 it is one byte that
    is not a continuation byte, followed by its continuation bytes, the
    bytes 10xxxxxx. *)
Definition is_continuation (c : Ascii.ascii) : bool :=
  match c with
  | Ascii.Ascii _ _ _ _ _ _ b6 b7 => b7 && negb b6
  end.

(** [len(s)]: the number of characters. *)
Fixpoint str_len (s : string) : nat :=
  match s with
  | EmptyString => O
  | String c s' => if is_continuation c then str_len s' else S (str_len s')
  end.

(** [s[:n]]: the first [n] characters, each with all its bytes. *)
Fixpoint str_slice_to (n : nat) (s : string) : string :=
  match s with
  | EmptyString => ""
  | String c s' =>
      if is_continuation c
      then String c (str_slice_to n s')
      else match n with
           | O => ""
           | S n' => String c (str_slice_to n' s')
           end
  end.

(** Truthiness of a [str]: non-empty. *)
Definition str_truthy (s : string) : bool :=
  match s with
  | EmptyString => false
  | String _ _ => true
  end.

(** [s * n], used to build test inputs. *)
Fixpoint str_repeat (s : string) (n : nat) : string :=
  match n with
  | O => ""
  | S n' => s +:+ str_repeat s n'
  end.

(** ** The collaborators' objects *)

(** [st.file_uploader] hands back an [UploadedFile]. *)
Record UploadedFile := {
  uf_name : string;
  uf_size : nat;
  uf_getvalue : list Byte.byte
}.

Record DocumentChunking := { chunk_size : Z; overlap : Z }.

Inductive PDFReader := PDFReader_new.

Record PDFKnowledgeBase := {
  kb_path : string;
  kb_reader : PDFReader;
  kb_chunking_strategy : DocumentChunking
}.

(** A chunk returned by [search]. *)
Record Document := { doc_content : string }.

(** A page of [pypdf.PdfReader(file).pages]. *)
Record Page := { extract_text : result string }.

(** The object returned by [Agent.run]: its [content] attribute and the
    text [str()] gives for the whole object. *)
Record RunResponse := {
  content : option string;
  response_str : string
}.

(** The keyword arguments of one [Agent(...)] call.  [None] stands for an
    argument the call leaves out. *)
Record Agent := {
  agent_name : string;
  agent_model : string;
  agent_knowledge : option PDFKnowledgeBase;
  agent_search_knowledge : option bool;
  agent_description : string;
  agent_instructions : list string;
  agent_tools : list string;
  agent_show_tool_calls : bool;
  agent_markdown : bool
}.

(** What a run of the script meets outside itself. *)
Record world := {
  (** lines 87-89: create the temporary file, write the bytes, give its name *)
  tempfile_write : list Byte.byte -> result string;
  (** [PDFKnowledgeBase(path=.., reader=.., chunking_strategy=..)]:
      [None] when the constructor returns the object *)
  PDFKnowledgeBase_init : string -> PDFReader -> DocumentChunking -> option exn;
  (** [.load(recreate=True, upsert=True)] *)
  kb_load : PDFKnowledgeBase -> option exn;
  (** [.search(query)] *)
  kb_search : PDFKnowledgeBase -> string -> result (list Document);
  (** [import pypdf], [open(path, 'rb')], [pypdf.PdfReader(file).pages] *)
  pypdf_pages : string -> result (list Page);
  (** [agent.run(prompt)], under the API key found in the environment *)
  agent_run : option string -> Agent -> string -> result RunResponse
}.

(** ** The page and the trace *)

Inductive element :=
| st_markdown (body : string)
| st_header (body : string)
| st_subheader (body : string)
| st_success (body : string)
| st_warning (body : string)
| st_error (body : string)
| st_info (body : string)
| st_spinner (text : string)
| st_tabs (labels : list string)
| st_text_area_disabled (label value : string).

Inductive event :=
| Render (e : element)
| Call_tempfile_write
| Call_PDFKnowledgeBase (path : string)
| Call_load (kb : PDFKnowledgeBase)
| Call_search (query : string)
| Call_pypdf (path : string)
| Call_Agent (name : string)
| Call_run (name : string) (prompt : string).

(** ** Session state and the script monad *)

Record session_state := {
  document_knowledge_base : option PDFKnowledgeBase;
  processed_documents : gset string
}.

Record script_state := {
  session : session_state;
  environ_OPENAI_API_KEY : option string;
  trace : list event
}.

(** A statement of the script: it may change the state, and either finishes
    with a value or raises.  State changes made before a [raise] stay. *)
Definition M (A : Type) : Type := script_state -> result A * script_state.

Definition ret {A} (a : A) : M A := fun st => (Ok a, st).

Definition bind {A B} (m : M A) (k : A -> M B) : M B :=
  fun st =>
    match m st with
    | (Ok a, st') => k a st'
    | (Raise e, st') => (Raise e, st')
    end.

Definition raise {A} (e : exn) : M A := fun st => (Raise e, st).

(** [try: body  except Exception as e: handler(e)] *)
Definition try_except {A} (body : M A) (handler : exn -> M A) : M A :=
  fun st =>
    match body st with
    | (Ok a, st') => (Ok a, st')
    | (Raise e, st') => handler e st'
    end.

Definition lift {A} (r : result A) : M A := fun st => (r, st).

Declare Scope py_scope.
Delimit Scope py_scope with py.
Notation "x <- c1 ;; c2" := (bind c1 (fun x => c2))
  (at level 100, c1 at next level, right associativity) : py_scope.
Notation "c1 ;; c2" := (bind c1 (fun _ => c2))
  (at level 100, right associativity) : py_scope.
Open Scope py_scope.

Definition emit (ev : event) : M unit :=
  fun st =>
    (Ok tt, {| session := session st;
               environ_OPENAI_API_KEY := environ_OPENAI_API_KEY st;
               trace := trace st ++ [ev] |}).

Definition render (e : element) : M unit := emit (Render e).

Definition get_session : M session_state := fun st => (Ok (session st), st).

Definition put_session (s : session_state) : M unit :=
  fun st =>
    (Ok tt, {| session := s;
               environ_OPENAI_API_KEY := environ_OPENAI_API_KEY st;
               trace := trace st |}).

Definition get_environ : M (option string) :=
  fun st => (Ok (environ_OPENAI_API_KEY st), st).

(** [os.environ["OPENAI_API_KEY"] = key] *)
Definition set_environ (key : string) : M unit :=
  fun st =>
    (Ok tt, {| session := session st;
               environ_OPENAI_API_KEY := Some key;
               trace := trace st |}).

(** [st.session_state.document_knowledge_base = kb] *)
Definition set_knowledge_base (kb : option PDFKnowledgeBase) : M unit :=
  s <- get_session ;;
  put_session {| document_knowledge_base := kb;
                 processed_documents := processed_documents s |}.

(** [st.session_state.processed_documents.add(name)] *)
Definition add_processed (name : string) : M unit :=
  s <- get_session ;;
  put_session {| document_knowledge_base := document_knowledge_base s;
                 processed_documents := {[ name ]} ∪ processed_documents s |}.

(** ** First-page preview, line 134

    [extract_text()[:200] + "..." if len(extract_text()) > 200 else
    extract_text()]: the conditional expression binds weaker than [+]. *)
Definition text_preview (text : string) : string :=
  if (200 <? str_len text)%nat
  then str_slice_to 200 text +:+ "..."
  else text.

(** ** Names at module level

    The script runs at module level, so a bare name is looked up among the
    module's globals (and then the builtins, which hold none of the names
    below).  [module_globals] lists what lines 2-9 import and what the
    script has assigned by the time line 92 runs.  The upload handler is
    written over an arbitrary namespace; [upload_handler] further down is
    its instance at [module_globals]. *)

Definition namespace := list string.

Definition module_globals : namespace :=
  [ "os"; "st"; "tempfile";                       (* lines 2-4 *)
    "Agent";                                      (* line 5 *)
    "OpenAIChat";                                 (* line 6 *)
    "OpenAIEmbedder";                             (* line 7 *)
    "DuckDuckGoTools";                            (* line 8 *)
    "PDFKnowledgeBase"; "PDFReader";              (* line 9 *)
    "api_key_input"; "chunk_size_parameter"; "overlap_parameter";
    "uploaded_document"; "temp_file"; "temp_file_path" ].

(** Evaluating a bare name. *)
Definition resolve (g : namespace) (name : string) : result unit :=
  if bool_decide (name ∈ g)
  then Ok tt
  else Raise (Exn "NameError" ("name '" +:+ name +:+ "' is not defined")).

(** ** Document ingestion, lines 82-140 *)

(** lines 87-89 *)
Definition write_temp_file (w : world) (up : UploadedFile) : M string :=
  emit Call_tempfile_write ;;
  lift (tempfile_write w (uf_getvalue up)).

Definition PDFKnowledgeBase_call (w : world) (path : string)
    (reader : PDFReader) (chunking : DocumentChunking) : result PDFKnowledgeBase :=
  match PDFKnowledgeBase_init w path reader chunking with
  | Some e => Raise e
  | None => Ok {| kb_path := path;
                  kb_reader := reader;
                  kb_chunking_strategy := chunking |}
  end.

(** The right-hand side of lines 92-99: the callee, then the keyword
    arguments from left to right, then the call. *)
Definition new_knowledge_base (g : namespace) (w : world)
    (temp_file_path : string) (chunk_size_parameter overlap_parameter : Z)
    : M PDFKnowledgeBase :=
  lift (resolve g "PDFKnowledgeBase") ;;
  lift (resolve g "PDFReader") ;;
  lift (resolve g "DocumentChunking") ;;
  emit (Call_PDFKnowledgeBase temp_file_path) ;;
  lift (PDFKnowledgeBase_call w temp_file_path PDFReader_new
          {| chunk_size := chunk_size_parameter; overlap := overlap_parameter |}).

(** [st.session_state.document_knowledge_base.<method>]: the attribute is
    read back from the session. *)
Definition current_knowledge_base (method : string) : M PDFKnowledgeBase :=
  s <- get_session ;;
  match document_knowledge_base s with
  | Some kb => ret kb
  | None =>
      raise (Exn "AttributeError"
               ("'NoneType' object has no attribute '" +:+ method +:+ "'"))
  end.

(** line 102 *)
Definition load_knowledge_base (w : world) : M unit :=
  kb <- current_knowledge_base "load" ;;
  emit (Call_load kb) ;;
  match kb_load w kb with
  | Some e => raise e
  | None => ret tt
  end.

(** lines 105-113 *)
Definition verify_knowledge_base (w : world) : M unit :=
  try_except
    (let verification_query := "test" in
     kb <- current_knowledge_base "search" ;;
     emit (Call_search verification_query) ;;
     verification_results <- lift (kb_search w kb verification_query) ;;
     match verification_results with
     | _ :: _ =>
         render (st_success ("✅ Knowledge base verified with "
                             +:+ pretty (length verification_results)
                             +:+ " searchable chunks"))
     | [] =>
         render (st_warning "⚠️ Knowledge base created but no searchable content found")
     end)
    (fun verification_error =>
       render (st_error ("❌ Knowledge base verification failed: "
                         +:+ exn_message verification_error))).

(** lines 124-137.  Line 134 calls [extract_text()] once for the test and
    once more for the branch taken; the page gives the same answer both
    times, so one call stands for them. *)
Definition preview_document (w : world) (temp_file_path : string) : M unit :=
  try_except
    (emit (Call_pypdf temp_file_path) ;;
     pages <- lift (pypdf_pages w temp_file_path) ;;
     let page_count := length pages in
     render (st_info ("📄 PDF Pages: " +:+ pretty page_count)) ;;
     match pages with
     | first_page_content :: _ =>
         text <- lift (extract_text first_page_content) ;;
         render (st_text_area_disabled "📝 First Page Preview:" (text_preview text))
     | [] => ret tt
     end)
    (fun preview_error =>
       render (st_warning ("Could not preview PDF content: "
                           +:+ exn_message preview_error))).

(** lines 104-137: what follows a successful [load] *)
Definition register_document (w : world) (up : UploadedFile)
    (temp_file_path : string) : M unit :=
  verify_knowledge_base w ;;
  add_processed (uf_name up) ;;
  render (st_success "✅ Document processed and stored in knowledge base!") ;;
  render (st_info ("📊 Document Details: " +:+ uf_name up
                   +:+ " (" +:+ pretty (uf_size up) +:+ " bytes)")) ;;
  s <- get_session ;;
  render (st_info ("🔍 Knowledge Base Status: Active with "
                   +:+ pretty (size (processed_documents s)) +:+ " document(s)")) ;;
  preview_document w temp_file_path.

(** lines 86-137, the body of the outer [try] *)
Definition ingest (g : namespace) (w : world)
    (chunk_size_parameter overlap_parameter : Z) (up : UploadedFile) : M unit :=
  temp_file_path <- write_temp_file w up ;;
  kb <- new_knowledge_base g w temp_file_path chunk_size_parameter overlap_parameter ;;
  set_knowledge_base (Some kb) ;;
  load_knowledge_base w ;;
  register_document w up temp_file_path.

(** lines 82-140 *)
Definition upload_handler_in (g : namespace) (w : world)
    (chunk_size_parameter overlap_parameter : Z)
    (uploaded_document : option UploadedFile) : M unit :=
  match uploaded_document with
  | None => ret tt
  | Some up =>
      s <- get_session ;;
      if bool_decide (uf_name up ∈ processed_documents s)
      then ret tt
      else
        render (st_spinner "Processing document...") ;;
        try_except
          (ingest g w chunk_size_parameter overlap_parameter up)
          (fun processing_error =>
             render (st_error ("Error processing document: "
                               +:+ exn_message processing_error)))
  end.

(** The handler as the file has it. *)
Definition upload_handler : world -> Z -> Z -> option UploadedFile -> M unit :=
  upload_handler_in module_globals.

(** ** The four agents, lines 143-215 *)

Definition gpt_model : string := "gpt-4o-mini".

Definition legal_advisor_agent (kb : PDFKnowledgeBase) : Agent :=
  {| agent_name := "LegalAdvisor";
     agent_model := gpt_model;
     agent_knowledge := Some kb;
     agent_search_knowledge := Some true;
     agent_description := "AI Legal Advisor - Discovers and references relevant legal cases, regulations, and precedents using comprehensive document data.";
     agent_instructions :=
       [ "IMPORTANT: You have access to a knowledge base containing the uploaded legal document. Use search_knowledge=True to access this content.";
         "First, search the knowledge base for the document content using relevant keywords.";
         "Extract all available data from the knowledge base and search for legal cases, regulations, and citations.";
         "If needed, use DuckDuckGo for additional legal references.";
         "Always provide source references in your answers.";
         "If you cannot find content, explicitly state what you searched for and what was found." ];
     agent_tools := [ "DuckDuckGoTools" ];
     agent_show_tool_calls := true;
     agent_markdown := true |}.

Definition contract_examiner_agent (kb : PDFKnowledgeBase) : Agent :=
  {| agent_name := "ContractExaminer";
     agent_model := gpt_model;
     agent_knowledge := Some kb;
     agent_search_knowledge := Some true;
     agent_description := "AI Contract Examiner - Reviews contracts and identifies key clauses, risks, and obligations using comprehensive document data.";
     agent_instructions :=
       [ "IMPORTANT: You have access to a knowledge base containing the uploaded legal document. Use search_knowledge=True to access this content.";
         "First, search the knowledge base for the document content using relevant keywords like 'contract', 'agreement', 'terms', 'clauses'.";
         "Extract all available data from the knowledge base and analyze the contract for key clauses, obligations, and potential ambiguities.";
         "Reference specific sections of the contract where possible.";
         "If you cannot find content, explicitly state what you searched for and what was found." ];
     agent_tools := [];
     agent_show_tool_calls := true;
     agent_markdown := true |}.

Definition risk_assessor_agent (kb : PDFKnowledgeBase) : Agent :=
  {| agent_name := "RiskAssessor";
     agent_model := gpt_model;
     agent_knowledge := Some kb;
     agent_search_knowledge := Some true;
     agent_description := "AI Risk Assessor - Provides comprehensive risk assessment and strategic recommendations based on comprehensive contract data.";
     agent_instructions :=
       [ "IMPORTANT: You have access to a knowledge base containing the uploaded legal document. Use search_knowledge=True to access this content.";
         "First, search the knowledge base for the document content using relevant keywords like 'risk', 'liability', 'obligation', 'compliance'.";
         "Using all data from the knowledge base, assess the contract for legal risks and opportunities.";
         "Provide actionable recommendations and ensure compliance with applicable laws.";
         "If you cannot find content, explicitly state what you searched for and what was found." ];
     agent_tools := [];
     agent_show_tool_calls := true;
     agent_markdown := true |}.

Definition analysis_coordinator_agent : Agent :=
  {| agent_name := "AnalysisCoordinator";
     agent_model := gpt_model;
     agent_knowledge := None;
     agent_search_knowledge := None;
     agent_description := "AI Analysis Coordinator - Integrates responses from the Legal Advisor, Contract Examiner, and Risk Assessor into a comprehensive report.";
     agent_instructions :=
       [ "Combine and summarize all insights provided by the Legal Advisor, Contract Examiner, and Risk Assessor. Ensure the final report includes references to all relevant sections from the document." ];
     agent_tools := [];
     agent_show_tool_calls := true;
     agent_markdown := true |}.

(** One [Agent(...)] call. *)
Definition new_Agent (a : Agent) : M Agent :=
  emit (Call_Agent (agent_name a)) ;;
  ret a.

Definition agents : Type :=
  option Agent * option Agent * option Agent * option Agent.

(** A knowledge-base object is truthy, so [if
    st.session_state.document_knowledge_base:] asks whether it is not
    [None]. *)
Definition initialize_ai_agents : M agents :=
  s <- get_session ;;
  match document_knowledge_base s with
  | Some kb =>
      legal_advisor <- new_Agent (legal_advisor_agent kb) ;;
      contract_examiner <- new_Agent (contract_examiner_agent kb) ;;
      risk_assessor <- new_Agent (risk_assessor_agent kb) ;;
      analysis_coordinator <- new_Agent analysis_coordinator_agent ;;
      ret (Some legal_advisor, Some contract_examiner,
           Some risk_assessor, Some analysis_coordinator)
  | None => ret (None, None, None, None)
  end.

(** ** The analysis, lines 218-240 *)

(** [agent.run(prompt)] *)
Definition run (w : world) (a : Agent) (prompt : string) : M RunResponse :=
  emit (Call_run (agent_name a) prompt) ;;
  key <- get_environ ;;
  lift (agent_run w key a prompt).

(** What [generate_team_analysis] hands back: a [str] on line 222, the
    coordinator's response object on line 240. *)
Inductive analysis_value :=
| Value_str (s : string)
| Value_response (r : RunResponse).

Definition initialization_error : string :=
  "Error: AI agents not properly initialized. Please ensure a document is uploaded and processed.".

(** The f-string of lines 231-238, over the three texts it embeds. *)
Definition coordinator_prompt (research contract strategy : string) : string :=
  "Create a concise legal analysis report covering:" +:+ nl
  +:+ "1. Key findings from research" +:+ nl
  +:+ "2. Contract analysis highlights" +:+ nl
  +:+ "3. Risk assessment summary" +:+ nl
  +:+ "4. Strategic recommendations" +:+ nl +:+ nl
  +:+ "Research: " +:+ research +:+ "..." +:+ nl
  +:+ "Contract: " +:+ contract +:+ "..." +:+ nl
  +:+ "Strategy: " +:+ strategy +:+ "...".

(** [str(response)[:500]] *)
Definition embedded (r : RunResponse) : string :=
  str_slice_to 500 (response_str r).

(** lines 225-240, once the four agents are there *)
Definition team_analysis (w : world) (analysis_query : string)
    (legal_advisor contract_examiner risk_assessor analysis_coordinator : Agent)
    : M analysis_value :=
  legal_research_output <-
    run w legal_advisor ("Research legal aspects of: " +:+ analysis_query) ;;
  contract_analysis_output <-
    run w contract_examiner ("Analyze contract for: " +:+ analysis_query) ;;
  risk_assessment_output <-
    run w risk_assessor ("Assess risks and strategy for: " +:+ analysis_query) ;;
  comprehensive_report <-
    run w analysis_coordinator
      (coordinator_prompt (embedded legal_research_output)
                          (embedded contract_analysis_output)
                          (embedded risk_assessment_output)) ;;
  ret (Value_response comprehensive_report).

(** lines 218-240: [all([...])] holds when none of the four is [None] *)
Definition generate_team_analysis (w : world) (analysis_query : string)
    : M analysis_value :=
  team <- initialize_ai_agents ;;
  match team with
  | (Some legal_advisor, Some contract_examiner,
     Some risk_assessor, Some analysis_coordinator) =>
      team_analysis w analysis_query
        legal_advisor contract_examiner risk_assessor analysis_coordinator
  | _ => ret (Value_str initialization_error)
  end.

(** ** The widgets of one run *)

Inductive analysis_type :=
| Contract_Review
| Legal_Research
| Risk_Assessment
| Compliance_Check
| Custom_Query.

(** What the user has entered when the script runs.  [custom_query] is the
    value of the text area of line 261 and [analyze_clicked] the value of
    the button of line 283; both widgets exist only under line 243. *)
Record inputs := {
  api_key_input : string;
  chunk_size_parameter : Z;
  overlap_parameter : Z;
  uploaded_document : option UploadedFile;
  analysis_type_selection : analysis_type;
  custom_query : string;
  analyze_clicked : bool
}.

(** The bounds of the two number inputs, lines 61-72. *)
Definition valid_chunk_parameters (inp : inputs) : Prop :=
  (1 <= chunk_size_parameter inp <= 5000)%Z /\
  (1 <= overlap_parameter inp <= 1000)%Z.

(** lines 263-280; the dictionary has no entry for "Custom Query" *)
Definition predefined_analysis_queries (t : analysis_type) : string :=
  match t with
  | Contract_Review =>
      "Analyze this document, contract, or agreement using all available data from the knowledge base. Identify key terms, obligations, and risks in detail."
  | Legal_Research =>
      "Using all available data from the knowledge base, find relevant legal cases and precedents related to this document, contract, or agreement. Provide detailed references and sources."
  | Risk_Assessment =>
      "Extract all data from the knowledge base and identify potential legal risks in this document, contract, or agreement. Detail specific risk areas and reference sections of the text."
  | Compliance_Check =>
      "Evaluate this document, contract, or agreement for compliance with legal regulations using all available data from the knowledge base. Highlight any areas of concern and suggest corrective actions."
  | Custom_Query => ""
  end.

(** lines 259-281 *)
Definition analysis_query_input (inp : inputs) : string :=
  match analysis_type_selection inp with
  | Custom_Query => custom_query inp
  | t => predefined_analysis_queries t
  end.

(** ** Rendering the result, lines 290-319 *)

(** [analysis_response.content] *)
Definition content_of (v : analysis_value) : M (option string) :=
  match v with
  | Value_response r => ret (content r)
  | Value_str _ =>
      raise (Exn "AttributeError" "'str' object has no attribute 'content'")
  end.

(** [x if x else default] for an optional text *)
Definition content_or (c : option string) (default : string) : string :=
  match c with
  | Some s => if str_truthy s then s else default
  | None => default
  end.

(** [str(analysis_response.content)] *)
Definition str_of_content (c : option string) : string :=
  match c with
  | Some s => s
  | None => "None"
  end.

(** lines 300-307 and 312-319: the coordinator is built again and asked
    about the first 300 characters of the report. *)
Definition coordinator_summary (w : world) (request : string)
    (analysis_response : analysis_value) (fallback : string) : M unit :=
  team <- initialize_ai_agents ;;
  match team with
  | (_, _, _, Some team_coordinator) =>
      c <- content_of analysis_response ;;
      summary <- run w team_coordinator
                   (request +:+ str_slice_to 300 (str_of_content c) +:+ "...") ;;
      render (st_markdown (content_or (content summary) fallback))
  | (_, _, _, None) =>
      render (st_error "Team Coordinator agent not available")
  end.

(** lines 291-319: the three tabs *)
Definition render_analysis (w : world) (analysis_response : analysis_value)
    : M unit :=
  render (st_tabs [ "Analysis"; "Key Points"; "Recommendations" ]) ;;
  render (st_subheader "📑 Detailed Analysis") ;;
  c <- content_of analysis_response ;;
  render (st_markdown (content_or c "No response generated.")) ;;
  render (st_subheader "📌 Key Points Summary") ;;
  coordinator_summary w "Extract 5 key legal points from: "
    analysis_response "No summary generated." ;;
  render (st_subheader "📋 Recommendations") ;;
  coordinator_summary w "Provide 3 specific legal recommendations from: "
    analysis_response "No recommendations generated.".

(** lines 287-319 *)
Definition analyze (w : world) (query : string) : M unit :=
  render (st_spinner "Analyzing...") ;;
  analysis_response <- generate_team_analysis w query ;;
  render_analysis w analysis_response.

(** lines 283-319 *)
Definition analyze_button (w : world) (inp : inputs) : M unit :=
  if analyze_clicked inp then
    if negb (str_truthy (analysis_query_input inp))
    then render (st_warning "Please enter a query.")
    else analyze w (analysis_query_input inp)
  else ret tt.

(** lines 243-322 *)
Definition main_interface (w : world) (inp : inputs) : M unit :=
  s <- get_session ;;
  match document_knowledge_base s with
  | Some _ =>
      render (st_header "🔍 Select Analysis Type") ;;
      render (st_success ("✅ Knowledge Base Ready! "
                          +:+ pretty (size (processed_documents s))
                          +:+ " document(s) loaded")) ;;
      (if bool_decide (processed_documents s = ∅)
       then ret tt
       else render (st_info ("📚 Available Documents: "
                             +:+ String.concat ", " (elements (processed_documents s))))) ;;
      analyze_button w inp
  | None =>
      render (st_warning "⚠️ Please upload a PDF document to begin analysis") ;;
      render (st_info "The AI Legal Team will analyze your document once it's uploaded and processed.")
  end.

(** ** One execution of the script *)

(** lines 53-58 *)
Definition configure_api_key (key : string) : M unit :=
  if str_truthy key
  then set_environ key ;;
       render (st_success "✅ OpenAI API key configured successfully!")
  else render (st_warning "⚠️ Please enter your API key to proceed.").

Definition page_title : string :=
  "<h1 style='text-align: center; color: #3e8e41;'>🤖 AI Legal Document Analyzer</h1>".

(** lines 25-31, with the line breaks of the literal *)
Definition page_description : string :=
  "
    <div style='text-align: center; font-size: 18px; color: #4B0082;'>
        Submit your legal documents and harness the capabilities of <b>AI Legal Advisor</b>, <b>AI Contract Examiner</b>, 
        <b>AI Risk Assessor</b>, and <b>AI Analysis Coordinator</b> for thorough legal examination. 
        Engage with the platform using personalized inquiries to facilitate enhanced teamwork and comprehensive document review.
    </div>
".

(** lines 12-75, up to the file uploader *)
Definition page_top (inp : inputs) : M unit :=
  render (st_markdown page_title) ;;
  render (st_markdown page_description) ;;
  render (st_header "⚙️ System Configuration") ;;
  configure_api_key (api_key_input inp) ;;
  render (st_header "📄 Document Management").

Definition script_in (g : namespace) (w : world) (inp : inputs) : M unit :=
  page_top inp ;;
  upload_handler_in g w (chunk_size_parameter inp) (overlap_parameter inp)
    (uploaded_document inp) ;;
  main_interface w inp.

(** lines 34-38: a session that has neither key gets [None] and [set()];
    a session that has them keeps them.  [None] below is the session of a
    user who has just arrived. *)
Definition initial_session : session_state :=
  {| document_knowledge_base := None; processed_documents := ∅ |}.

Definition initialize_state (previous : option session_state) : session_state :=
  match previous with
  | Some s => s
  | None => initial_session
  end.

Definition run_script_in (g : namespace) (w : world) (inp : inputs)
    (environ : option string) (previous : option session_state)
    : result unit * script_state :=
  script_in g w inp
    {| session := initialize_state previous;
       environ_OPENAI_API_KEY := environ;
       trace := [] |}.

Definition run_script : world -> inputs -> option string ->
    option session_state -> result unit * script_state :=
  run_script_in module_globals.

(** The session states a user can bring about, one execution after the
    other, whatever the collaborators do. *)
Inductive reachable_in (g : namespace) : session_state -> Prop :=
| reachable_first w inp environ :
    reachable_in g (session (snd (run_script_in g w inp environ None)))
| reachable_next s w inp environ :
    reachable_in g s ->
    reachable_in g (session (snd (run_script_in g w inp environ (Some s)))).

(** ** Concrete collaborators and inputs, for the examples *)

Definition temp_path : string := "/tmp/tmpk3v9x2.pdf".

Definition contract_pdf : UploadedFile :=
  {| uf_name := "contract.pdf";
     uf_size := 4;
     uf_getvalue := [ Byte.x25; Byte.x50; Byte.x44; Byte.x46 ] |}.

Definition page_with (text : string) : Page := {| extract_text := Ok text |}.

Definition answer (text : string) : RunResponse :=
  {| content := Some text; response_str := text |}.

(** Every collaborator does its work: the file is written, the knowledge
    base is built and loaded, the probe finds one chunk, the PDF has two
    pages, every agent answers. *)
Definition obliging_world : world :=
  {| tempfile_write := fun _ => Ok temp_path;
     PDFKnowledgeBase_init := fun _ _ _ => None;
     kb_load := fun _ => None;
     kb_search := fun _ _ => Ok [ {| doc_content := "This Agreement" |} ];
     pypdf_pages := fun _ =>
       Ok [ page_with "This Agreement is made"; page_with "Signed" ];
     agent_run := fun _ a _ => Ok (answer ("Findings of " +:+ agent_name a)) |}.

Definition connection_error : exn :=
  Exn "ConnectionError" "connection refused".

Definition search_fails_world : world :=
  {| tempfile_write := tempfile_write obliging_world;
     PDFKnowledgeBase_init := PDFKnowledgeBase_init obliging_world;
     kb_load := kb_load obliging_world;
     kb_search := fun _ _ => Raise connection_error;
     pypdf_pages := pypdf_pages obliging_world;
     agent_run := agent_run obliging_world |}.

Definition agents_fail_world : world :=
  {| tempfile_write := tempfile_write obliging_world;
     PDFKnowledgeBase_init := PDFKnowledgeBase_init obliging_world;
     kb_load := kb_load obliging_world;
     kb_search := kb_search obliging_world;
     pypdf_pages := pypdf_pages obliging_world;
     agent_run := fun _ _ _ => Raise connection_error |}.

Definition long_page_world : world :=
  {| tempfile_write := tempfile_write obliging_world;
     PDFKnowledgeBase_init := PDFKnowledgeBase_init obliging_world;
     kb_load := kb_load obliging_world;
     kb_search := kb_search obliging_world;
     pypdf_pages := fun _ => Ok [ page_with (str_repeat "a" 201) ];
     agent_run := agent_run obliging_world |}.

Definition contract_kb : PDFKnowledgeBase :=
  {| kb_path := temp_path;
     kb_reader := PDFReader_new;
     kb_chunking_strategy := {| chunk_size := 1000; overlap := 200 |} |}.

(** A session in which "contract.pdf" has been ingested. *)
Definition loaded_session : session_state :=
  {| document_knowledge_base := Some contract_kb;
     processed_documents := {[ "contract.pdf" ]} |}.

Definition start (s : session_state) : script_state :=
  {| session := s; environ_OPENAI_API_KEY := Some "sk-test"; trace := [] |}.

Definition contract_review_click (up : option UploadedFile) : inputs :=
  {| api_key_input := "sk-test";
     chunk_size_parameter := 1000;
     overlap_parameter := 200;
     uploaded_document := up;
     analysis_type_selection := Contract_Review;
     custom_query := "";
     analyze_clicked := true |}.

Definition custom_click (query : string) : inputs :=
  {| api_key_input := "sk-test";
     chunk_size_parameter := 1000;
     overlap_parameter := 200;
     uploaded_document := None;
     analysis_type_selection := Custom_Query;
     custom_query := query;
     analyze_clicked := true |}.

(** ** Summaries and tactics used by the proofs *)

(** Unfolds the statements of the script monad. *)
Ltac unfold_statements :=
  unfold render, set_knowledge_base, add_processed, new_Agent, run in *;
  unfold bind, ret, raise, try_except, lift, emit, get_session,
    put_session, get_environ, set_environ in *.

(** Picks the member of a computed list. *)
Ltac find_member :=
  repeat (first [ left; reflexivity | right ]).

(** No import of the file binds [DocumentChunking]: evaluating the name on
    line 95 raises. *)
Definition DocumentChunking_NameError : exn :=
  Exn "NameError" "name 'DocumentChunking' is not defined".

(** The exception with which the body of the outer [try] ends. *)
Definition ingestion_error (w : world) (up : UploadedFile) : exn :=
  match tempfile_write w (uf_getvalue up) with
  | Raise e => e
  | Ok _ => DocumentChunking_NameError
  end.

(** [e] is an exception that [Agent.run] raises under the API key [k]. *)
Definition agent_failure (w : world) (k : option string) (e : exn) : Prop :=
  exists (a : Agent) (prompt : string), agent_run w k a prompt = Raise e.

(** Run from a state whose session is [s] and whose API key is [k], the
    statement [m] keeps both; when it finishes its value satisfies [Q],
    and when it raises, the exception is one an agent raised. *)
Definition analysis_spec {A} (w : world) (s : session_state)
    (k : option string) (m : M A) (Q : A -> Prop) : Prop :=
  forall st,
    session st = s -> environ_OPENAI_API_KEY st = k ->
    match m st with
    | (Ok a, st') =>
        session st' = s /\ environ_OPENAI_API_KEY st' = k /\ Q a
    | (Raise e, st') =>
        session st' = s /\ environ_OPENAI_API_KEY st' = k /\ agent_failure w k e
    end.

(** The states reached by the file as written. *)
Definition reachable : session_state -> Prop := reachable_in module_globals.

(** What the right-hand side of lines 92-99 evaluates to: the run of
    [new_knowledge_base], whose result does not depend on the state. *)
Definition construction (g : namespace) (w : world) (path : string)
    (cs ov : Z) : result PDFKnowledgeBase :=
  fst (new_knowledge_base g w path cs ov
         {| session := initial_session;
            environ_OPENAI_API_KEY := None;
            trace := [] |}).

(** The state [st] after further events. *)
Definition extend (st : script_state) (evs : list event) : script_state :=
  {| session := session st;
     environ_OPENAI_API_KEY := environ_OPENAI_API_KEY st;
     trace := trace st ++ evs |}.

(** The state [st] with the knowledge base [kb], the names [docs], and
    further events. *)
Definition update (st : script_state) (kb : option PDFKnowledgeBase)
    (docs : gset string) (evs : list event) : script_state :=
  {| session := {| document_knowledge_base := kb; processed_documents := docs |};
     environ_OPENAI_API_KEY := environ_OPENAI_API_KEY st;
     trace := trace st ++ evs |}.

(** What lines 105-113 render, by the answer of the search. *)
Definition verification_report (answer : result (list Document)) : element :=
  match answer with
  | Ok [] =>
      st_warning "⚠️ Knowledge base created but no searchable content found"
  | Ok results =>
      st_success ("✅ Knowledge base verified with "
                  +:+ pretty (length results) +:+ " searchable chunks")
  | Raise verification_error =>
      st_error ("❌ Knowledge base verification failed: "
                +:+ exn_message verification_error)
  end.

(** The elements lines 84, 140 and 117 render. *)
Definition processing_spinner : event :=
  Render (st_spinner "Processing document...").

Definition processing_error (e : exn) : event :=
  Render (st_error ("Error processing document: " +:+ exn_message e)).

Definition processed_success : event :=
  Render (st_success "✅ Document processed and stored in knowledge base!").

(** The session an attempt leaves behind, read off the answers of the
    collaborators. *)
Definition after_attempt (g : namespace) (w : world) (cs ov : Z)
    (up : UploadedFile) (s : session_state) : session_state :=
  match tempfile_write w (uf_getvalue up) with
  | Raise _ => s
  | Ok path =>
      match construction g w path cs ov with
      | Raise _ => s
      | Ok kb =>
          match kb_load w kb with
          | Some _ =>
              {| document_knowledge_base := Some kb;
                 processed_documents := processed_documents s |}
          | None =>
              {| document_knowledge_base := Some kb;
                 processed_documents := {[ uf_name up ]} ∪ processed_documents s |}
          end
      end
  end.

(** The events an attempt adds to the trace. *)
Definition attempt_events (g : namespace) (w : world) (cs ov : Z)
    (up : UploadedFile) (evs : list event) : Prop :=
  match tempfile_write w (uf_getvalue up) with
  | Raise e =>
      evs = [ processing_spinner; Call_tempfile_write; processing_error e ]
  | Ok path =>
      match construction g w path cs ov with
      | Raise e =>
          exists calls,
            evs = processing_spinner :: Call_tempfile_write :: calls
                    ++ [ processing_error e ] /\
            (forall ev, In ev calls -> ev = Call_PDFKnowledgeBase path)
      | Ok kb =>
          match kb_load w kb with
          | Some e =>
              evs = [ processing_spinner; Call_tempfile_write;
                      Call_PDFKnowledgeBase path; Call_load kb;
                      processing_error e ]
          | None =>
              exists rest,
                evs = [ processing_spinner; Call_tempfile_write;
                        Call_PDFKnowledgeBase path; Call_load kb;
                        Call_search "test";
                        Render (verification_report (kb_search w kb "test"));
                        processed_success ] ++ rest
          end
      end
  end.

(** A processed name implies a knowledge base. *)
Definition processed_implies_knowledge_base (s : session_state) : Prop :=
  processed_documents s <> ∅ -> document_knowledge_base s <> None.

(** What [page_top] renders. *)
Definition page_top_events (inp : inputs) : list event :=
  [ Render (st_markdown page_title);
    Render (st_markdown page_description);
    Render (st_header "⚙️ System Configuration");
    Render (if str_truthy (api_key_input inp)
            then st_success "✅ OpenAI API key configured successfully!"
            else st_warning "⚠️ Please enter your API key to proceed.");
    Render (st_header "📄 Document Management") ].

(** lines 321-322 *)
Definition no_document_events : list event :=
  [ Render (st_warning "⚠️ Please upload a PDF document to begin analysis");
    Render (st_info "The AI Legal Team will analyze your document once it's uploaded and processed.") ].

(** The widgets with the file [up] in the uploader and "Contract Review"
    selected. *)
Definition upload_input (key : string) (cs ov : Z) (up : UploadedFile)
    (clicked : bool) : inputs :=
  {| api_key_input := key;
     chunk_size_parameter := cs;
     overlap_parameter := ov;
     uploaded_document := Some up;
     analysis_type_selection := Contract_Review;
     custom_query := "";
     analyze_clicked := clicked |}.

(** The statement [m] only appends to the trace. *)
Definition grows {A} (m : M A) : Prop :=
  forall st, exists evs, trace (snd (m st)) = trace st ++ evs.

(** The four [Agent(...)] calls of [initialize_ai_agents]. *)
Definition agents_built : list event :=
  [ Call_Agent "LegalAdvisor"; Call_Agent "ContractExaminer";
    Call_Agent "RiskAssessor"; Call_Agent "AnalysisCoordinator" ].

(** How the trace of an analysis begins. *)
Definition analysis_start (query : string) : list event :=
  Render (st_spinner "Analyzing...")
  :: agents_built
  ++ [ Call_run "LegalAdvisor" ("Research legal aspects of: " +:+ query) ].

(** ** The launcher page, [streamlit_app.py] *)

(** lines 9-36, with the line breaks of the literal *)
Definition launcher_notice : string :=
  "
# 🤖 AI Legal Document Analyzer

## 🚨 Important Notice

Due to SQLite compatibility issues in the deployment environment, this app is using the fallback version.

## 🔧 What This Means

- **Same functionality** - All AI agents and features work exactly the same
- **No vector database** - Uses basic PDF knowledge base instead of ChromaDB
- **Fully compatible** - Works in all deployment environments

## 📁 Files

- **`legal_team_fallback.py`** - Main application (recommended)
- **`legal_team.py`** - Full version with ChromaDB (requires SQLite 3.35.0+)

## 🚀 Quick Start

```bash
streamlit run legal_team_fallback.py
```

## 📖 Documentation

See `deployment_guide.md` for complete troubleshooting information.
".

(** lines 9-41: the notice, and under the button the two messages.  The
    script reads and writes no session key and calls no collaborator. *)
Definition streamlit_app (launch_clicked : bool) : M unit :=
  render (st_markdown launcher_notice) ;;
  if launch_clicked
  then render (st_success "✅ Please run: streamlit run legal_team_fallback.py") ;;
       render (st_info "This will launch the fully functional AI Legal Team application!")
  else ret tt.

(** ** Further collaborators and inputs, for the examples *)

Definition addendum_pdf : UploadedFile :=
  {| uf_name := "addendum.pdf";
     uf_size := 4;
     uf_getvalue := [ Byte.x25; Byte.x50; Byte.x44; Byte.x46 ] |}.

Definition pypdf_error : exn :=
  Exn "PdfReadError" "EOF marker not found".

(** As [obliging_world], but pypdf cannot read the file. *)
Definition unreadable_pdf_world : world :=
  {| tempfile_write := tempfile_write obliging_world;
     PDFKnowledgeBase_init := PDFKnowledgeBase_init obliging_world;
     kb_load := kb_load obliging_world;
     kb_search := kb_search obliging_world;
     pypdf_pages := fun _ => Raise pypdf_error;
     agent_run := agent_run obliging_world |}.

(** As [obliging_world], but the coordinator answers nothing. *)
Definition silent_coordinator_world : world :=
  {| tempfile_write := tempfile_write obliging_world;
     PDFKnowledgeBase_init := PDFKnowledgeBase_init obliging_world;
     kb_load := kb_load obliging_world;
     kb_search := kb_search obliging_world;
     pypdf_pages := pypdf_pages obliging_world;
     agent_run := fun _ a _ =>
       Ok {| content := None;
             response_str := "RunResponse(content=None)" |} |}.

(** The events of an execution that handles no upload successfully and
    has no knowledge base: what the file as written adds for an upload. *)
Definition failed_upload_events (w : world) (uploaded : option UploadedFile)
    : list event :=
  match uploaded with
  | Some up =>
      [ processing_spinner; Call_tempfile_write;
        processing_error (ingestion_error w up) ]
  | None => []
  end.

(** Events that reach a knowledge base, pypdf or an agent. *)
Definition reaches_knowledge_base_or_agent (ev : event) : bool :=
  match ev with
  | Call_PDFKnowledgeBase _ | Call_load _ | Call_search _ | Call_pypdf _
  | Call_Agent _ | Call_run _ _ => true
  | Render _ | Call_tempfile_write => false
  end.

(** The prompt of lines 302-304 and 314-316 for the report content [c]. *)
Definition summary_prompt (request : string) (c : option string) : string :=
  request +:+ str_slice_to 300 (str_of_content c) +:+ "...".

(** The events of one summary tab when the coordinator answers [r]. *)
Definition summary_events (request fallback : string) (c : option string)
    (r : RunResponse) : list event :=
  agents_built ++
  [ Call_run "AnalysisCoordinator" (summary_prompt request c);
    Render (st_markdown (content_or (content r) fallback)) ].

(** The three specialist prompts and the coordinator's, lines 225-239. *)
Definition team_runs (query : string) (r1 r2 r3 : RunResponse) : list event :=
  [ Call_run "LegalAdvisor" ("Research legal aspects of: " +:+ query);
    Call_run "ContractExaminer" ("Analyze contract for: " +:+ query);
    Call_run "RiskAssessor" ("Assess risks and strategy for: " +:+ query);
    Call_run "AnalysisCoordinator"
      (coordinator_prompt (embedded r1) (embedded r2) (embedded r3)) ].

(** The events of an analysis in which every run returns. *)
Definition successful_analysis_events (query : string)
    (r1 r2 r3 r4 r5 r6 : RunResponse) : list event :=
  Render (st_spinner "Analyzing...")
  :: agents_built ++ team_runs query r1 r2 r3 ++
  [ Render (st_tabs [ "Analysis"; "Key Points"; "Recommendations" ]);
    Render (st_subheader "📑 Detailed Analysis");
    Render (st_markdown (content_or (content r4) "No response generated."));
    Render (st_subheader "📌 Key Points Summary") ] ++
  summary_events "Extract 5 key legal points from: " "No summary generated."
    (content r4) r5 ++
  Render (st_subheader "📋 Recommendations")
  :: summary_events "Provide 3 specific legal recommendations from: "
       "No recommendations generated." (content r4) r6.

(** The fixed text of the coordinator prompt, without the three answers. *)
Definition coordinator_prompt_frame : nat :=
  str_len (coordinator_prompt "" "" "").

(** A rendered element, as against a call of a collaborator. *)
Definition is_render (ev : event) : bool :=
  match ev with
  | Render _ => true
  | _ => false
  end.

(** * Properties *)

(** ** Characters and slicing *)

Lemma str_append_cons (c : Ascii.ascii) (s t : string) :
  String c s +:+ t = String c (s +:+ t).
Proof. reflexivity. Qed.

Lemma str_append_nil (t : string) : "" +:+ t = t.
Proof. reflexivity. Qed.

Lemma str_append_length (s t : string) :
  String.length (s +:+ t) = String.length s + String.length t.
Proof.
  induction s as [|c s IH]; [reflexivity |].
  rewrite str_append_cons. simpl. rewrite IH. reflexivity.
Qed.

Lemma str_len_append (s t : string) :
  str_len (s +:+ t) = str_len s + str_len t.
Proof.
  induction s as [|c s IH]; [reflexivity |].
  rewrite str_append_cons. simpl.
  destruct (is_continuation c); rewrite IH; reflexivity.
Qed.

(** A character has at least one byte. *)
Lemma str_len_bytes (s : string) : str_len s <= String.length s.
Proof.
  induction s as [|c s IH]; simpl; [lia |].
  destruct (is_continuation c); lia.
Qed.

Lemma str_slice_to_length (n : nat) (s : string) :
  str_len (str_slice_to n s) = Nat.min n (str_len s).
Proof.
  revert n. induction s as [|c s IH]; intros n; simpl.
  - lia.
  - destruct (is_continuation c) eqn:Hc; simpl.
    + rewrite Hc. apply IH.
    + destruct n as [|n]; simpl; [reflexivity |].
      rewrite Hc, IH. reflexivity.
Qed.

Lemma str_slice_to_prefix (n : nat) (s : string) :
  exists rest, s = str_slice_to n s +:+ rest.
Proof.
  revert n. induction s as [|c s IH]; intros n; simpl.
  - exists "". reflexivity.
  - destruct (is_continuation c).
    + destruct (IH n) as [rest Hrest]. exists rest.
      rewrite str_append_cons. f_equal. exact Hrest.
    + destruct n as [|n].
      * exists (String c s). reflexivity.
      * destruct (IH n) as [rest Hrest]. exists rest.
        rewrite str_append_cons. f_equal. exact Hrest.
Qed.

Lemma str_slice_to_short (n : nat) (s : string) :
  str_len s <= n -> str_slice_to n s = s.
Proof.
  revert n. induction s as [|c s IH]; intros n H; simpl in *.
  - reflexivity.
  - destruct (is_continuation c).
    + rewrite IH by exact H. reflexivity.
    + destruct n as [|n]; [lia |]. rewrite IH by lia. reflexivity.
Qed.

Lemma text_preview_short (text : string) :
  str_len text <= 200 -> text_preview text = text.
Proof.
  intros H. unfold text_preview.
  destruct (Nat.ltb_spec 200 (str_len text)); [lia | reflexivity].
Qed.

Lemma text_preview_long (text : string) :
  200 < str_len text ->
  text_preview text = str_slice_to 200 text +:+ "..." /\
  str_len (text_preview text) = 203.
Proof.
  intros H. unfold text_preview.
  destruct (Nat.ltb_spec 200 (str_len text)); [| lia].
  split; [reflexivity |].
  rewrite str_len_append, str_slice_to_length.
  change (str_len "...") with 3. lia.
Qed.

Lemma trace_snoc3 (t : list event) (a b c : event) :
  ((t ++ [a]) ++ [b]) ++ [c] = t ++ [a; b; c].
Proof. rewrite <- !app_assoc. reflexivity. Qed.

(** ** The first-page preview *)

(** Characters, not bytes, are counted: a first page of 150 section signs,
    two bytes each in UTF-8, is shown whole. *)
Lemma preview_counts_characters :
  String.length (str_repeat "§" 150) = 300 /\
  str_len (str_repeat "§" 150) = 150 /\
  text_preview (str_repeat "§" 150) = str_repeat "§" 150.
Proof.
  split; [vm_compute; reflexivity |].
  split; [vm_compute; reflexivity |].
  vm_compute. reflexivity.
Qed.

(** A character that is cut is never split: of 201 section signs the first
    200 are kept, all their 400 bytes, and "..." follows. *)
Lemma preview_keeps_characters_whole :
  text_preview (str_repeat "§" 201) = str_repeat "§" 200 +:+ "...".
Proof. vm_compute. reflexivity. Qed.

(** C6, as amended: when pypdf opens the file and the first page gives its
    text, the preview shown is [text_preview] of that text: the text itself
    when it has at most 200 characters, and otherwise its first 200
    characters followed by the three characters "...", 203 characters in
    all. *)
Theorem first_page_preview (w : world) (path : string) (st : script_state)
    (first : Page) (rest : list Page) (text : string) :
  pypdf_pages w path = Ok (first :: rest) ->
  extract_text first = Ok text ->
  preview_document w path st =
    (Ok tt,
     {| session := session st;
        environ_OPENAI_API_KEY := environ_OPENAI_API_KEY st;
        trace := trace st ++
          [ Call_pypdf path;
            Render (st_info ("📄 PDF Pages: " +:+ pretty (length (first :: rest))));
            Render (st_text_area_disabled "📝 First Page Preview:"
                      (text_preview text)) ] |})
  /\ str_len (text_preview text) <= 203
  /\ (str_len text <= 200 -> text_preview text = text)
  /\ (200 < str_len text ->
      text_preview text = str_slice_to 200 text +:+ "..." /\
      str_len (str_slice_to 200 text) = 200 /\
      (exists rest_of_text, text = str_slice_to 200 text +:+ rest_of_text) /\
      str_len (text_preview text) = 203).
Proof.
  intros Hpages Htext. split; [| split; [| split]].
  - unfold preview_document. unfold_statements. simpl.
    rewrite Hpages, Htext. simpl. rewrite trace_snoc3. reflexivity.
  - destruct (Nat.le_gt_cases (str_len text) 200) as [H | H].
    + rewrite text_preview_short by exact H. lia.
    + destruct (text_preview_long text H) as [_ Hlen]. lia.
  - apply text_preview_short.
  - intros H. destruct (text_preview_long text H) as [Heq Hlen].
    split; [exact Heq |]. split; [| split; [| exact Hlen]].
    + rewrite str_slice_to_length. lia.
    + apply str_slice_to_prefix.
Qed.

Lemma first_page_preview_witness :
  pypdf_pages obliging_world temp_path
    = Ok [ page_with "This Agreement is made"; page_with "Signed" ] /\
  extract_text (page_with "This Agreement is made")
    = Ok "This Agreement is made" /\
  text_preview "This Agreement is made" = "This Agreement is made".
Proof.
  split; [reflexivity |]. split; [reflexivity |].
  apply (first_page_preview obliging_world temp_path (start initial_session)
           (page_with "This Agreement is made") [ page_with "Signed" ]
           "This Agreement is made"); [reflexivity | reflexivity |].
  vm_compute. lia.
Defined.

(** C6 as stated fails: a first page of 201 characters is shown as 203
    characters, more than 200. *)
Lemma preview_of_201_characters_is_203_long :
  exists shown : string,
    In (Render (st_text_area_disabled "📝 First Page Preview:" shown))
       (trace (snd (preview_document long_page_world temp_path
                      (start initial_session)))) /\
    str_len shown = 203 /\
    ~ str_len shown <= 200.
Proof.
  exists (text_preview (str_repeat "a" 201)).
  split; [| split].
  - vm_compute. find_member.
  - vm_compute. reflexivity.
  - vm_compute. lia.
Qed.

(** ** Uploading a name that has been processed *)

Lemma skip_processed_name (g : namespace) (w : world)
    (cs ov : Z) (up : UploadedFile) (st : script_state) :
  uf_name up ∈ processed_documents (session st) ->
  upload_handler_in g w cs ov (Some up) st = (Ok tt, st).
Proof.
  intros Hin. unfold upload_handler_in. unfold_statements.
  rewrite bool_decide_eq_true_2 by exact Hin. reflexivity.
Qed.

(** C7: when the name of the uploaded file is in the processed set, the
    handler ends at line 83 and leaves everything as it was: the session,
    the environment and the trace, so no file is written, no knowledge
    base built and none loaded, whatever the bytes of the file are. *)
Theorem processed_name_skips_ingestion (g : namespace) (w : world)
    (cs ov : Z) (up : UploadedFile) (st : script_state) :
  uf_name up ∈ processed_documents (session st) ->
  upload_handler_in g w cs ov (Some up) st = (Ok tt, st) /\
  trace (snd (upload_handler_in g w cs ov (Some up) st)) = trace st.
Proof.
  intros Hin. rewrite (skip_processed_name g w cs ov up st Hin).
  split; reflexivity.
Qed.

Lemma processed_name_skips_ingestion_witness :
  (uf_name contract_pdf ∈ processed_documents (session (start loaded_session))) /\
  upload_handler obliging_world 1000 200 (Some contract_pdf) (start loaded_session)
    = (Ok tt, start loaded_session).
Proof.
  assert (H : uf_name contract_pdf
              ∈ processed_documents (session (start loaded_session))).
  { vm_compute. reflexivity. }
  split; [exact H |].
  exact (proj1 (processed_name_skips_ingestion module_globals obliging_world
                  1000 200 contract_pdf (start loaded_session) H)).
Defined.

(** ** The agent factory *)

(** C8: [initialize_ai_agents] always returns, never raises; with a
    knowledge base in the session it returns the four agents, the first
    three bound to that knowledge base, and with none it returns
    [(None, None, None, None)]; the session is left as it was. *)
Theorem initialize_ai_agents_result (st : script_state) :
  match document_knowledge_base (session st) with
  | Some kb =>
      exists a1 a2 a3 a4 : Agent,
        fst (initialize_ai_agents st) = Ok (Some a1, Some a2, Some a3, Some a4) /\
        agent_name a1 = "LegalAdvisor" /\ agent_knowledge a1 = Some kb /\
        agent_name a2 = "ContractExaminer" /\ agent_knowledge a2 = Some kb /\
        agent_name a3 = "RiskAssessor" /\ agent_knowledge a3 = Some kb /\
        agent_name a4 = "AnalysisCoordinator" /\ agent_knowledge a4 = None
  | None =>
      fst (initialize_ai_agents st) = Ok (None, None, None, None)
  end /\
  session (snd (initialize_ai_agents st)) = session st.
Proof.
  unfold initialize_ai_agents. unfold_statements.
  destruct (document_knowledge_base (session st)) as [kb |]; simpl.
  - split; [| reflexivity].
    exists (legal_advisor_agent kb), (contract_examiner_agent kb),
      (risk_assessor_agent kb), analysis_coordinator_agent.
    repeat split; reflexivity.
  - split; reflexivity.
Qed.

(** ** Ingestion in the file as written *)

Lemma DocumentChunking_unbound :
  resolve module_globals "DocumentChunking" = Raise DocumentChunking_NameError.
Proof. reflexivity. Qed.

Lemma PDFKnowledgeBase_bound :
  resolve module_globals "PDFKnowledgeBase" = Ok tt /\
  resolve module_globals "PDFReader" = Ok tt.
Proof. split; reflexivity. Qed.

Lemma ingest_raises (w : world) (cs ov : Z) (up : UploadedFile)
    (st : script_state) :
  ingest module_globals w cs ov up st =
    (Raise (ingestion_error w up),
     {| session := session st;
        environ_OPENAI_API_KEY := environ_OPENAI_API_KEY st;
        trace := trace st ++ [ Call_tempfile_write ] |}).
Proof.
  unfold ingest, write_temp_file, new_knowledge_base, ingestion_error.
  unfold_statements. simpl.
  destruct (tempfile_write w (uf_getvalue up)) as [path | e]; reflexivity.
Qed.

Lemma upload_handler_reports (w : world) (cs ov : Z)
    (up : UploadedFile) (st : script_state) :
  uf_name up ∉ processed_documents (session st) ->
  upload_handler w cs ov (Some up) st =
    (Ok tt,
     {| session := session st;
        environ_OPENAI_API_KEY := environ_OPENAI_API_KEY st;
        trace := trace st ++
          [ Render (st_spinner "Processing document...");
            Call_tempfile_write;
            Render (st_error ("Error processing document: "
                              +:+ exn_message (ingestion_error w up))) ] |}).
Proof.
  intros Hnew. unfold upload_handler, upload_handler_in.
  unfold bind at 1. unfold get_session at 1.
  rewrite bool_decide_eq_false_2 by exact Hnew.
  unfold bind at 1. unfold render at 1. unfold emit at 1.
  unfold try_except. rewrite ingest_raises.
  unfold render, emit. simpl. rewrite trace_snoc3. reflexivity.
Qed.

(** Whatever is uploaded, the handler of the file as written returns and
    leaves the session as it found it. *)
Lemma upload_handler_keeps_session (w : world) (cs ov : Z)
    (uploaded : option UploadedFile) (st : script_state) :
  fst (upload_handler w cs ov uploaded st) = Ok tt /\
  session (snd (upload_handler w cs ov uploaded st)) = session st.
Proof.
  destruct uploaded as [up |]; [| split; reflexivity].
  destruct (decide (uf_name up ∈ processed_documents (session st))) as [Hin | Hnew].
  - unfold upload_handler.
    rewrite (skip_processed_name _ _ _ _ _ _ Hin). split; reflexivity.
  - rewrite (upload_handler_reports w cs ov up st Hnew). split; reflexivity.
Qed.

(** ** The analysis leaves the session alone and raises only what an agent
    raises *)

Section AnalysisRules.
Context (w : world) (s : session_state) (k : option string).

Lemma spec_ret {A} (a : A) (Q : A -> Prop) :
  Q a -> analysis_spec w s k (ret a) Q.
Proof. intros HQ st Hs Hk. simpl. auto. Qed.

Lemma spec_bind {A B} (m : M A) (f : A -> M B) (Q : A -> Prop) (R : B -> Prop) :
  analysis_spec w s k m Q ->
  (forall a, Q a -> analysis_spec w s k (f a) R) ->
  analysis_spec w s k (bind m f) R.
Proof.
  intros Hm Hf st Hs Hk. unfold bind.
  specialize (Hm st Hs Hk). destruct (m st) as [[a | e] st'].
  - destruct Hm as (Hs' & Hk' & HQ). exact (Hf a HQ st' Hs' Hk').
  - exact Hm.
Qed.

Lemma spec_weaken {A} (m : M A) (Q R : A -> Prop) :
  analysis_spec w s k m Q -> (forall a, Q a -> R a) ->
  analysis_spec w s k m R.
Proof.
  intros Hm HQR st Hs Hk. specialize (Hm st Hs Hk).
  destruct (m st) as [[a | e] st']; [| exact Hm].
  destruct Hm as (Hs' & Hk' & HQ). auto.
Qed.

Lemma spec_emit (ev : event) :
  analysis_spec w s k (emit ev) (fun _ => True).
Proof. intros st Hs Hk. simpl. auto. Qed.

Lemma spec_render (e : element) :
  analysis_spec w s k (render e) (fun _ => True).
Proof. apply spec_emit. Qed.

Lemma spec_get_session :
  analysis_spec w s k get_session (fun x => x = s).
Proof. intros st Hs Hk. simpl. auto. Qed.

Lemma spec_new_Agent (a : Agent) :
  analysis_spec w s k (new_Agent a) (fun x => x = a).
Proof. intros st Hs Hk. simpl. auto. Qed.

Lemma spec_run (a : Agent) (prompt : string) :
  analysis_spec w s k (run w a prompt)
    (fun r => agent_run w k a prompt = Ok r).
Proof.
  intros st Hs Hk. unfold run. unfold_statements. simpl. rewrite Hk.
  destruct (agent_run w k a prompt) as [r | e] eqn:Hrun; simpl.
  - auto.
  - repeat split; auto. exists a, prompt. exact Hrun.
Qed.

Lemma spec_initialize_ai_agents :
  analysis_spec w s k initialize_ai_agents
    (fun team =>
       match document_knowledge_base s with
       | Some kb =>
           team = (Some (legal_advisor_agent kb),
                   Some (contract_examiner_agent kb),
                   Some (risk_assessor_agent kb),
                   Some analysis_coordinator_agent)
       | None => team = (None, None, None, None)
       end).
Proof.
  unfold initialize_ai_agents.
  eapply spec_bind; [apply spec_get_session |]. intros s' ->.
  destruct (document_knowledge_base s) as [kb |].
  - eapply spec_bind; [apply spec_new_Agent |]. intros a1 ->.
    eapply spec_bind; [apply spec_new_Agent |]. intros a2 ->.
    eapply spec_bind; [apply spec_new_Agent |]. intros a3 ->.
    eapply spec_bind; [apply spec_new_Agent |]. intros a4 ->.
    apply spec_ret. reflexivity.
  - apply spec_ret. reflexivity.
Qed.

(** With a knowledge base in the session the analysis hands back the
    coordinator's response object, not the text of line 222. *)
Lemma spec_generate_team_analysis (query : string) (kb : PDFKnowledgeBase) :
  document_knowledge_base s = Some kb ->
  analysis_spec w s k (generate_team_analysis w query)
    (fun v => exists r, v = Value_response r).
Proof.
  intros Hkb. unfold generate_team_analysis.
  eapply spec_bind; [apply spec_initialize_ai_agents |].
  intros team Hteam. rewrite Hkb in Hteam. subst team.
  unfold team_analysis.
  eapply spec_bind; [apply spec_run |]. intros r1 _.
  eapply spec_bind; [apply spec_run |]. intros r2 _.
  eapply spec_bind; [apply spec_run |]. intros r3 _.
  eapply spec_bind; [apply spec_run |]. intros r4 _.
  apply spec_ret. exists r4. reflexivity.
Qed.

Lemma spec_coordinator_summary (request fallback : string)
    (r : RunResponse) (kb : PDFKnowledgeBase) :
  document_knowledge_base s = Some kb ->
  analysis_spec w s k
    (coordinator_summary w request (Value_response r) fallback)
    (fun _ => True).
Proof.
  intros Hkb. unfold coordinator_summary.
  eapply spec_bind; [apply spec_initialize_ai_agents |].
  intros team Hteam. rewrite Hkb in Hteam. subst team.
  eapply (spec_bind _ _ (fun _ => True)); [apply spec_ret; exact I |]. intros c _.
  eapply spec_bind; [apply spec_run |]. intros summary _.
  apply spec_render.
Qed.

Lemma spec_analyze (query : string) (kb : PDFKnowledgeBase) :
  document_knowledge_base s = Some kb ->
  analysis_spec w s k (analyze w query) (fun _ => True).
Proof.
  intros Hkb. unfold analyze.
  eapply spec_bind; [apply spec_render |]. intros _ _.
  eapply spec_bind; [apply (spec_generate_team_analysis query kb Hkb) |].
  intros v [r ->]. unfold render_analysis.
  eapply spec_bind; [apply spec_render |]. intros _ _.
  eapply spec_bind; [apply spec_render |]. intros _ _.
  eapply (spec_bind _ _ (fun _ => True)); [apply spec_ret; exact I |]. intros c _.
  eapply spec_bind; [apply spec_render |]. intros _ _.
  eapply spec_bind; [apply spec_render |]. intros _ _.
  eapply spec_bind; [apply (spec_coordinator_summary _ _ r kb Hkb) |].
  intros _ _.
  eapply spec_bind; [apply spec_render |]. intros _ _.
  apply (spec_coordinator_summary _ _ r kb Hkb).
Qed.

Lemma spec_main_interface (inp : inputs) :
  analysis_spec w s k (main_interface w inp) (fun _ => True).
Proof.
  unfold main_interface.
  eapply spec_bind; [apply spec_get_session |]. intros s' ->.
  destruct (document_knowledge_base s) as [kb |] eqn:Hkb.
  - eapply spec_bind; [apply spec_render |]. intros _ _.
    eapply spec_bind; [apply spec_render |]. intros _ _.
    eapply (spec_bind _ _ (fun _ => True)).
    { destruct (bool_decide (processed_documents s = ∅));
        [apply spec_ret; exact I | apply spec_render]. }
    intros _ _. unfold analyze_button.
    destruct (analyze_clicked inp); [| apply spec_ret; exact I].
    destruct (negb (str_truthy (analysis_query_input inp)));
      [apply spec_render | apply (spec_analyze _ kb Hkb)].
  - eapply spec_bind; [apply spec_render |]. intros _ _.
    apply spec_render.
Qed.
End AnalysisRules.

(** ** One execution of the file as written *)

Lemma page_top_runs (inp : inputs) (st : script_state) :
  exists st',
    page_top inp st = (Ok tt, st') /\
    session st' = session st /\
    (forall ev, In ev (trace st') ->
       In ev (trace st) \/ exists e, ev = Render e /\
         (e = st_markdown page_title \/ e = st_markdown page_description \/
          (forall body, e <> st_markdown body))).
Proof.
  unfold page_top, configure_api_key. unfold_statements.
  destruct (str_truthy (api_key_input inp)); simpl;
    (eexists; split; [reflexivity | split; [reflexivity |]]);
    intros ev Hev; simpl in Hev;
    rewrite !in_app_iff in Hev; simpl in Hev;
    repeat match goal with
           | H : _ \/ _ |- _ => destruct H as [H | H]
           | H : False |- _ => destruct H
           end;
    try (left; assumption);
    subst ev; right; eexists; (split; [reflexivity |]);
    first [ left; reflexivity
          | right; left; reflexivity
          | right; right; intros body; discriminate ].
Qed.

(** An execution of the file returns or raises what an agent raised, and
    leaves the session as the previous execution left it. *)
Lemma run_script_keeps_session (w : world) (inp : inputs)
    (environ : option string) (previous : option session_state) :
  session (snd (run_script w inp environ previous)) = initialize_state previous.
Proof.
  unfold run_script, run_script_in, script_in.
  set (st0 := {| session := initialize_state previous;
                 environ_OPENAI_API_KEY := environ; trace := [] |}).
  destruct (page_top_runs inp st0) as (st1 & Htop & Hs1 & _).
  unfold bind at 1. rewrite Htop.
  destruct (upload_handler_keeps_session w (chunk_size_parameter inp)
              (overlap_parameter inp) (uploaded_document inp) st1) as [Hok Hs2].
  unfold bind at 1. fold upload_handler.
  destruct (upload_handler w (chunk_size_parameter inp) (overlap_parameter inp)
              (uploaded_document inp) st1) as [[[] | e] st2]; simpl in *;
    [| discriminate].
  pose proof (spec_main_interface w (session st2) (environ_OPENAI_API_KEY st2)
                inp st2 eq_refl eq_refl) as Hmain.
  destruct (main_interface w inp st2) as [[[] | e] st3]; simpl;
    destruct Hmain as (Hs3 & _); rewrite Hs3, Hs2, Hs1; reflexivity.
Qed.

Lemma reachable_initial (s : session_state) :
  reachable s -> s = initial_session.
Proof.
  intros Hreach.
  induction Hreach as [w inp environ | s w inp environ Hreach IH].
  - apply (run_script_keeps_session w inp environ None).
  - fold (run_script w inp environ (Some s)).
    rewrite run_script_keeps_session. exact IH.
Qed.

(** ** Ingestion, phase by phase, in any namespace *)

Lemma new_knowledge_base_runs (g : namespace) (w : world) (path : string)
    (cs ov : Z) (st : script_state) :
  exists evs,
    new_knowledge_base g w path cs ov st
      = (construction g w path cs ov, extend st evs) /\
    (forall kb, construction g w path cs ov = Ok kb ->
       evs = [ Call_PDFKnowledgeBase path ]) /\
    (forall ev, In ev evs -> ev = Call_PDFKnowledgeBase path).
Proof.
  unfold construction, new_knowledge_base, PDFKnowledgeBase_call, extend.
  unfold_statements. simpl.
  destruct (resolve g "PDFKnowledgeBase") as [[] | e1]; simpl.
  2: { exists []. rewrite app_nil_r. destruct st; simpl.
       split; [reflexivity | split; [discriminate | intros ev []]]. }
  destruct (resolve g "PDFReader") as [[] | e2]; simpl.
  2: { exists []. rewrite app_nil_r. destruct st; simpl.
       split; [reflexivity | split; [discriminate | intros ev []]]. }
  destruct (resolve g "DocumentChunking") as [[] | e3]; simpl.
  2: { exists []. rewrite app_nil_r. destruct st; simpl.
       split; [reflexivity | split; [discriminate | intros ev []]]. }
  exists [ Call_PDFKnowledgeBase path ].
  destruct (PDFKnowledgeBase_init w path PDFReader_new _); simpl;
    (split; [reflexivity | split; [reflexivity |]]);
    intros ev [<- | []]; reflexivity.
Qed.

(** In the file as written the construction raises the NameError. *)
Lemma construction_raises (w : world) (path : string) (cs ov : Z) :
  construction module_globals w path cs ov = Raise DocumentChunking_NameError.
Proof. reflexivity. Qed.

Lemma ingest_write_fails (g : namespace) (w : world) (cs ov : Z)
    (up : UploadedFile) (st : script_state) (e : exn) :
  tempfile_write w (uf_getvalue up) = Raise e ->
  ingest g w cs ov up st = (Raise e, extend st [ Call_tempfile_write ]).
Proof.
  intros Hwrite. unfold ingest, write_temp_file. unfold_statements. simpl.
  rewrite Hwrite. reflexivity.
Qed.

Lemma ingest_construction_fails (g : namespace) (w : world) (cs ov : Z)
    (up : UploadedFile) (st : script_state) (path : string) (e : exn) :
  tempfile_write w (uf_getvalue up) = Ok path ->
  construction g w path cs ov = Raise e ->
  exists evs, ingest g w cs ov up st = (Raise e, extend st evs).
Proof.
  intros Hwrite Hnew. unfold ingest, write_temp_file.
  unfold bind at 1. unfold bind at 1. unfold emit at 1. unfold lift at 1.
  simpl. rewrite Hwrite. unfold bind at 1.
  destruct (new_knowledge_base_runs g w path cs ov
              (extend st [ Call_tempfile_write ])) as (evs & Hrun & _).
  unfold extend in Hrun at 1. simpl in Hrun. rewrite Hrun, Hnew.
  exists (Call_tempfile_write :: evs). unfold extend. simpl.
  rewrite <- app_assoc. reflexivity.
Qed.

Lemma ingest_constructed (g : namespace) (w : world) (cs ov : Z)
    (up : UploadedFile) (st : script_state) (path : string)
    (kb : PDFKnowledgeBase) :
  tempfile_write w (uf_getvalue up) = Ok path ->
  construction g w path cs ov = Ok kb ->
  ingest g w cs ov up st =
    match kb_load w kb with
    | Some e =>
        (Raise e,
         update st (Some kb) (processed_documents (session st))
           [ Call_tempfile_write; Call_PDFKnowledgeBase path; Call_load kb ])
    | None =>
        register_document w up path
          (update st (Some kb) (processed_documents (session st))
             [ Call_tempfile_write; Call_PDFKnowledgeBase path; Call_load kb ])
    end.
Proof.
  intros Hwrite Hnew. unfold ingest, write_temp_file.
  unfold bind at 1. unfold bind at 1. unfold emit at 1. unfold lift at 1.
  simpl. rewrite Hwrite. unfold bind at 1.
  destruct (new_knowledge_base_runs g w path cs ov
              (extend st [ Call_tempfile_write ])) as (evs & Hrun & Hevs & _).
  unfold extend in Hrun at 1. simpl in Hrun. rewrite Hrun, Hnew.
  rewrite (Hevs kb Hnew).
  unfold load_knowledge_base, current_knowledge_base, update, extend.
  unfold_statements. simpl.
  destruct (kb_load w kb) as [e |]; simpl; rewrite <- !app_assoc; reflexivity.
Qed.

Lemma verify_knowledge_base_runs (w : world) (st : script_state)
    (kb : PDFKnowledgeBase) :
  document_knowledge_base (session st) = Some kb ->
  verify_knowledge_base w st =
    (Ok tt,
     extend st [ Call_search "test";
                 Render (verification_report (kb_search w kb "test")) ]).
Proof.
  intros Hkb. unfold verify_knowledge_base, current_knowledge_base, extend.
  unfold_statements. simpl. rewrite Hkb. simpl.
  destruct (kb_search w kb "test") as [[| d results] | e]; simpl;
    rewrite <- ?app_assoc; reflexivity.
Qed.

Lemma preview_document_runs (w : world) (path : string) (st : script_state) :
  exists evs, preview_document w path st = (Ok tt, extend st evs).
Proof.
  unfold preview_document, extend. unfold_statements. simpl.
  destruct (pypdf_pages w path) as [[| first rest] | e]; simpl.
  - eexists. rewrite <- ?app_assoc. reflexivity.
  - destruct (extract_text first) as [text | e]; simpl;
      eexists; rewrite <- ?app_assoc; reflexivity.
  - eexists. rewrite <- ?app_assoc. reflexivity.
Qed.

Lemma register_document_runs (w : world) (up : UploadedFile) (path : string)
    (st : script_state) (kb : PDFKnowledgeBase) :
  document_knowledge_base (session st) = Some kb ->
  exists evs,
    register_document w up path st =
      (Ok tt,
       update st (Some kb) ({[ uf_name up ]} ∪ processed_documents (session st))
         (Call_search "test"
          :: Render (verification_report (kb_search w kb "test"))
          :: Render (st_success "✅ Document processed and stored in knowledge base!")
          :: evs)).
Proof.
  intros Hkb. unfold register_document.
  unfold bind at 1. rewrite (verify_knowledge_base_runs w st kb Hkb).
  unfold add_processed, render, emit, get_session, put_session, bind at 1 2 3 4 5 6.
  unfold extend at 1. simpl. rewrite Hkb.
  match goal with
  | |- context [preview_document w path ?st1] =>
      destruct (preview_document_runs w path st1) as (evs & Hprev);
      unfold bind; rewrite Hprev
  end.
  eexists. unfold extend, update. simpl. rewrite <- ?app_assoc. simpl.
  reflexivity.
Qed.

(** ** An ingestion attempt, end to end, in any namespace *)

Lemma upload_attempt_runs (g : namespace) (w : world) (cs ov : Z)
    (up : UploadedFile) (st : script_state) :
  uf_name up ∉ processed_documents (session st) ->
  exists evs,
    upload_handler_in g w cs ov (Some up) st =
      (Ok tt,
       {| session := after_attempt g w cs ov up (session st);
          environ_OPENAI_API_KEY := environ_OPENAI_API_KEY st;
          trace := trace st ++ evs |}) /\
    attempt_events g w cs ov up evs.
Proof.
  intros Hnew. unfold upload_handler_in.
  unfold bind at 1. unfold get_session at 1.
  rewrite bool_decide_eq_false_2 by exact Hnew.
  unfold bind at 1. unfold render at 1. unfold emit at 1.
  unfold try_except, after_attempt, attempt_events.
  set (st1 := {| session := session st;
                 environ_OPENAI_API_KEY := environ_OPENAI_API_KEY st;
                 trace := trace st ++ [ Render (st_spinner "Processing document...") ] |}).
  destruct (tempfile_write w (uf_getvalue up)) as [path | e] eqn:Hwrite.
  - destruct (construction g w path cs ov) as [kb | e] eqn:Hnewkb.
    + rewrite (ingest_constructed g w cs ov up st1 path kb Hwrite Hnewkb).
      destruct (kb_load w kb) as [e |] eqn:Hload.
      * eexists. split; [| reflexivity].
        unfold update, render, emit, processing_error. simpl.
        rewrite <- !app_assoc. destruct (session st). reflexivity.
      * match goal with
        | |- context [register_document w up path ?st2] =>
            destruct (register_document_runs w up path st2 kb eq_refl)
              as (rest & Hreg); rewrite Hreg
        end.
        exists ([ processing_spinner; Call_tempfile_write;
                  Call_PDFKnowledgeBase path; Call_load kb;
                  Call_search "test";
                  Render (verification_report (kb_search w kb "test"));
                  processed_success ] ++ rest).
        split; [| exists rest; reflexivity].
        unfold update. simpl. rewrite <- !app_assoc. reflexivity.
    + destruct (ingest_construction_fails g w cs ov up st1 path e Hwrite Hnewkb)
        as (evs & Hrun).
      assert (Hcalls : exists calls,
                 evs = Call_tempfile_write :: calls /\
                 forall ev, In ev calls -> ev = Call_PDFKnowledgeBase path).
      { revert Hrun. unfold ingest, write_temp_file.
        unfold bind at 1. unfold bind at 1. unfold emit at 1. unfold lift at 1.
        simpl. rewrite Hwrite. unfold bind at 1.
        destruct (new_knowledge_base_runs g w path cs ov
                    (extend st1 [ Call_tempfile_write ]))
          as (calls & Hcalls & _ & Honly).
        unfold extend in Hcalls at 1. simpl in Hcalls. rewrite Hcalls, Hnewkb.
        unfold extend. simpl. intros [= Heq].
        rewrite <- app_assoc in Heq. apply app_inv_head in Heq.
        exists calls. split; [symmetry; exact Heq | exact Honly]. }
      destruct Hcalls as (calls & -> & Honly).
      rewrite Hrun. eexists. split.
      * unfold extend, render, emit. simpl. rewrite <- !app_assoc. simpl.
        destruct (session st). reflexivity.
      * exists calls. split; [reflexivity | exact Honly].
  - rewrite (ingest_write_fails g w cs ov up st1 e Hwrite).
    eexists. split; [| reflexivity].
    unfold extend, render, emit, processing_error. simpl.
    rewrite <- !app_assoc. destruct (session st). reflexivity.
Qed.

(** The upload handler returns, whatever is uploaded and in any
    namespace: nothing raised inside lines 85-137 leaves it. *)
Lemma upload_handler_in_returns (g : namespace) (w : world) (cs ov : Z)
    (uploaded : option UploadedFile) (st : script_state) :
  fst (upload_handler_in g w cs ov uploaded st) = Ok tt /\
  environ_OPENAI_API_KEY (snd (upload_handler_in g w cs ov uploaded st))
    = environ_OPENAI_API_KEY st /\
  (session (snd (upload_handler_in g w cs ov uploaded st)) = session st \/
   exists up, uploaded = Some up /\
     (uf_name up ∉ processed_documents (session st)) /\
     session (snd (upload_handler_in g w cs ov uploaded st))
       = after_attempt g w cs ov up (session st)).
Proof.
  destruct uploaded as [up |]; [| repeat split; left; reflexivity].
  destruct (decide (uf_name up ∈ processed_documents (session st))) as [Hin | Hnew].
  - rewrite (skip_processed_name g w cs ov up st Hin).
    repeat split. left. reflexivity.
  - destruct (upload_attempt_runs g w cs ov up st Hnew) as (evs & Hrun & _).
    rewrite Hrun. repeat split. right. exists up. auto.
Qed.

Lemma after_attempt_invariant (g : namespace) (w : world) (cs ov : Z)
    (up : UploadedFile) (s : session_state) :
  processed_implies_knowledge_base s ->
  processed_implies_knowledge_base (after_attempt g w cs ov up s).
Proof.
  unfold after_attempt. intros Hs.
  destruct (tempfile_write w (uf_getvalue up)) as [path | e]; [| exact Hs].
  destruct (construction g w path cs ov) as [kb | e]; [| exact Hs].
  destruct (kb_load w kb); intros _; discriminate.
Qed.

Lemma run_script_in_session (g : namespace) (w : world) (inp : inputs)
    (environ : option string) (previous : option session_state) :
  session (snd (run_script_in g w inp environ previous))
    = session (snd (upload_handler_in g w (chunk_size_parameter inp)
                      (overlap_parameter inp) (uploaded_document inp)
                      (snd (page_top inp
                              {| session := initialize_state previous;
                                 environ_OPENAI_API_KEY := environ;
                                 trace := [] |})))) /\
  session (snd (page_top inp
                  {| session := initialize_state previous;
                     environ_OPENAI_API_KEY := environ;
                     trace := [] |})) = initialize_state previous.
Proof.
  unfold run_script_in, script_in.
  set (st0 := {| session := initialize_state previous;
                 environ_OPENAI_API_KEY := environ; trace := [] |}).
  destruct (page_top_runs inp st0) as (st1 & Htop & Hs1 & _).
  unfold bind at 1. rewrite Htop. simpl.
  split; [| exact Hs1].
  destruct (upload_handler_in_returns g w (chunk_size_parameter inp)
              (overlap_parameter inp) (uploaded_document inp) st1) as (Hok & _).
  unfold bind at 1.
  destruct (upload_handler_in g w (chunk_size_parameter inp)
              (overlap_parameter inp) (uploaded_document inp) st1)
    as [[[] | e] st2]; simpl in *; [| discriminate].
  pose proof (spec_main_interface w (session st2) (environ_OPENAI_API_KEY st2)
                inp st2 eq_refl eq_refl) as Hmain.
  destruct (main_interface w inp st2) as [[[] | e] st3]; simpl;
    destruct Hmain as (Hs3 & _); exact Hs3.
Qed.

Lemma run_script_in_invariant (g : namespace) (w : world) (inp : inputs)
    (environ : option string) (previous : option session_state) :
  processed_implies_knowledge_base (initialize_state previous) ->
  processed_implies_knowledge_base
    (session (snd (run_script_in g w inp environ previous))).
Proof.
  intros Hinv.
  destruct (run_script_in_session g w inp environ previous) as [Hrun Htop].
  rewrite Hrun.
  match goal with
  | |- context [upload_handler_in g w ?cs ?ov ?up ?st1] =>
      destruct (upload_handler_in_returns g w cs ov up st1)
        as (_ & _ & [Hsame | (up' & _ & _ & Hafter)])
  end.
  - rewrite Hsame, Htop. exact Hinv.
  - rewrite Hafter, Htop. apply after_attempt_invariant. exact Hinv.
Qed.

Lemma initial_session_invariant :
  processed_implies_knowledge_base initial_session.
Proof. intros H. exfalso. apply H. reflexivity. Qed.

(** ** Failures during ingestion *)

(** C2: in the file as written an exception that ends an ingestion attempt
    is raised by the temporary-file write or, once the file is written, by
    the construction of the knowledge base on lines 92-99, before anything
    is stored; no attempt gets to the load or to the verification search.
    The handler of line 139 catches the exception and reports it with
    [st.error], the upload handler returns, and the session is what it was
    before the attempt: its knowledge base is the one it had, null or
    not. *)
Theorem failed_ingestion_keeps_knowledge_base (w : world) (cs ov : Z)
    (up : UploadedFile) (st : script_state) (e : exn) :
  uf_name up ∉ processed_documents (session st) ->
  fst (ingest module_globals w cs ov up (extend st [ processing_spinner ]))
    = Raise e ->
  let r := upload_handler w cs ov (Some up) st in
  (tempfile_write w (uf_getvalue up) = Raise e \/
   exists path,
     tempfile_write w (uf_getvalue up) = Ok path /\
     construction module_globals w path cs ov = Raise e) /\
  fst r = Ok tt /\
  trace (snd r)
    = trace st ++ [ processing_spinner; Call_tempfile_write; processing_error e ] /\
  (forall kb, ~ In (Call_load kb) (skipn (length (trace st)) (trace (snd r)))) /\
  (forall q, ~ In (Call_search q) (skipn (length (trace st)) (trace (snd r)))) /\
  document_knowledge_base (session (snd r))
    = document_knowledge_base (session st) /\
  session (snd r) = session st.
Proof.
  intros Hnew Hraise r.
  rewrite ingest_raises in Hraise. simpl in Hraise.
  injection Hraise as <-.
  unfold r. rewrite (upload_handler_reports w cs ov up st Hnew). simpl.
  rewrite skipn_app, skipn_all, Nat.sub_diag. simpl.
  split.
  { unfold ingestion_error.
    destruct (tempfile_write w (uf_getvalue up)) as [path | e'] eqn:Hwrite.
    - right. exists path. split; [reflexivity | apply construction_raises].
    - left. reflexivity. }
  split; [reflexivity |]. split; [reflexivity |].
  split.
  { intros kb H. repeat (destruct H as [H | H]; [discriminate H |]). destruct H. }
  split.
  { intros q H. repeat (destruct H as [H | H]; [discriminate H |]). destruct H. }
  split; reflexivity.
Qed.

Lemma failed_ingestion_keeps_knowledge_base_witness :
  let st := start initial_session in
  let r := upload_handler obliging_world 1000 200 (Some contract_pdf) st in
  (uf_name contract_pdf ∉ processed_documents (session st)) /\
  fst (ingest module_globals obliging_world 1000 200 contract_pdf
         (extend st [ processing_spinner ]))
    = Raise DocumentChunking_NameError /\
  fst r = Ok tt /\
  trace (snd r)
    = [ processing_spinner; Call_tempfile_write;
        Render (st_error
                  "Error processing document: name 'DocumentChunking' is not defined") ] /\
  document_knowledge_base (session (snd r)) = None.
Proof.
  intros st r.
  assert (Hnew : uf_name contract_pdf ∉ processed_documents (session st)).
  { vm_compute. discriminate. }
  assert (Hraise : fst (ingest module_globals obliging_world 1000 200
                          contract_pdf (extend st [ processing_spinner ]))
                   = Raise DocumentChunking_NameError) by reflexivity.
  split; [exact Hnew |]. split; [exact Hraise |].
  pose proof (failed_ingestion_keeps_knowledge_base obliging_world 1000 200
                contract_pdf st DocumentChunking_NameError Hnew Hraise)
    as (_ & Hok & Htrace & _ & _ & Hkb & _).
  split; [exact Hok |]. split; [exact Htrace | exact Hkb].
Defined.

(** ** Verification and the processed set *)



(** Lines 104-117 taken alone, from a state with a knowledge base in the
    session, which no execution of the file as written reaches: the
    failure of the search is reported by line 113, and lines 115 and 117
    follow. *)
Lemma register_document_after_failed_search :
  let r := register_document search_fails_world contract_pdf temp_path
             (start {| document_knowledge_base := Some contract_kb;
                       processed_documents := ∅ |}) in
  fst r = Ok tt /\
  processed_documents (session (snd r)) = {[ "contract.pdf" ]} /\
  In (Render (st_error
                "❌ Knowledge base verification failed: connection refused"))
     (trace (snd r)) /\
  In processed_success (trace (snd r)).
Proof.
  intros r.
  split; [vm_compute; reflexivity |].
  split; [vm_compute; reflexivity |].
  split; vm_compute; find_member.
Qed.

(** ** The end-to-end scenario in the file as written *)

Lemma page_top_trace (inp : inputs) (st : script_state) :
  page_top inp st =
    (Ok tt,
     {| session := session st;
        environ_OPENAI_API_KEY :=
          if str_truthy (api_key_input inp)
          then Some (api_key_input inp)
          else environ_OPENAI_API_KEY st;
        trace := trace st ++ page_top_events inp |}).
Proof.
  unfold page_top, configure_api_key, page_top_events. unfold_statements.
  destruct (str_truthy (api_key_input inp)); simpl;
    rewrite <- !app_assoc; reflexivity.
Qed.

(** An execution of the file as written that starts in a new session and
    is handed a file: the attempt fails and the page asks for a document. *)
Lemma first_upload_fails (w : world) (inp : inputs) (environ : option string)
    (up : UploadedFile) :
  uploaded_document inp = Some up ->
  run_script w inp environ (Some initial_session) =
    (Ok tt,
     {| session := initial_session;
        environ_OPENAI_API_KEY :=
          if str_truthy (api_key_input inp)
          then Some (api_key_input inp)
          else environ;
        trace := page_top_events inp ++
          [ processing_spinner; Call_tempfile_write;
            processing_error (ingestion_error w up) ] ++
          no_document_events |}).
Proof.
  intros Hup. unfold run_script, run_script_in, script_in.
  unfold bind at 1. rewrite page_top_trace. simpl trace.
  unfold bind at 1. rewrite Hup. fold upload_handler.
  rewrite upload_handler_reports by (simpl; apply not_elem_of_empty).
  unfold main_interface. unfold_statements. simpl.
  reflexivity.
Qed.

Lemma run_from_initial_session (w : world) (inp : inputs)
    (environ : option string) :
  run_script w inp environ (Some initial_session) =
    (Ok tt,
     {| session := initial_session;
        environ_OPENAI_API_KEY :=
          if str_truthy (api_key_input inp)
          then Some (api_key_input inp)
          else environ;
        trace := page_top_events inp ++
          failed_upload_events w (uploaded_document inp) ++
          no_document_events |}).
Proof.
  destruct (uploaded_document inp) as [up |] eqn:Hup.
  - rewrite (first_upload_fails w inp environ up Hup). reflexivity.
  - unfold run_script, run_script_in, script_in.
    unfold bind at 1. rewrite page_top_trace. simpl trace.
    unfold bind at 1. rewrite Hup.
    unfold upload_handler_in, main_interface. unfold_statements. simpl.
    rewrite <- ?app_assoc. reflexivity.
Qed.

(** C1 fails in the file as written.  A new session is handed
    "contract.pdf", whatever its bytes, its size, the chunk parameters and
    the API key: the attempt ends in the handler of line 139 (with the
    NameError of line 95 when the temporary file could be written), the
    session stays as lines 34-38 made it, so the processed set is empty
    and not {"contract.pdf"}.  On the next execution, with "Contract
    Review" selected and the click on Analyze, the page shows the request
    to upload a document and no report: the only markdown rendered is the
    page's own title and description. *)
Theorem contract_pdf_is_not_ingested (w : world) (key : string) (cs ov : Z)
    (size : nat) (bytes : list Byte.byte) (environ : option string) :
  let up := {| uf_name := "contract.pdf";
               uf_size := size; uf_getvalue := bytes |} in
  let first := run_script w (upload_input key cs ov up false) environ None in
  let second :=
    run_script w (upload_input key cs ov up true)
      (environ_OPENAI_API_KEY (snd first)) (Some (session (snd first))) in
  fst first = Ok tt /\
  session (snd first) = initial_session /\
  processed_documents (session (snd first)) <> {[ "contract.pdf" ]} /\
  In (processing_error (ingestion_error w up)) (trace (snd first)) /\
  (forall path, tempfile_write w bytes = Ok path ->
     ingestion_error w up = DocumentChunking_NameError) /\
  fst second = Ok tt /\
  session (snd second) = initial_session /\
  In (Render (st_warning "⚠️ Please upload a PDF document to begin analysis"))
     (trace (snd second)) /\
  (forall body, In (Render (st_markdown body)) (trace (snd second)) ->
     body = page_title \/ body = page_description) /\
  (forall name prompt, ~ In (Call_run name prompt) (trace (snd second))).
Proof.
  intros up first second.
  assert (Hfirst : first = run_script w (upload_input key cs ov up false)
                             environ (Some initial_session)) by reflexivity.
  rewrite (first_upload_fails w (upload_input key cs ov up false) environ up
             eq_refl) in Hfirst.
  assert (Hsecond : second = run_script w (upload_input key cs ov up true)
                               (environ_OPENAI_API_KEY (snd first))
                               (Some initial_session)).
  { unfold second. rewrite Hfirst. reflexivity. }
  rewrite (first_upload_fails w (upload_input key cs ov up true) _ up
             eq_refl) in Hsecond.
  rewrite Hfirst, Hsecond. unfold no_document_events. simpl.
  assert (Hnot : processed_documents initial_session <> {[ "contract.pdf" ]}).
  { intros Heq. assert (Hin : "contract.pdf" ∈ (∅ : gset string)).
    { simpl in Heq. rewrite Heq. apply elem_of_singleton. reflexivity. }
    exact (not_elem_of_empty _ Hin). }
  assert (Hname : forall path, tempfile_write w bytes = Ok path ->
            ingestion_error w up = DocumentChunking_NameError).
  { intros path Hwrite. unfold ingestion_error. simpl. rewrite Hwrite.
    reflexivity. }
  destruct (str_truthy key);
    (split; [reflexivity |]); (split; [reflexivity |]);
    (split; [exact Hnot |]); (split; [find_member |]);
    (split; [exact Hname |]); (split; [reflexivity |]);
    (split; [reflexivity |]); (split; [find_member |]);
    (split;
     [ intros body H;
       repeat (destruct H as [H | H];
               [first [ discriminate H | injection H as <-; auto ] |]);
       destruct H
     | intros name prompt H;
       repeat (destruct H as [H | H]; [discriminate H |]); destruct H ]).
Qed.

(** ** The session invariant *)

(** In the file as written the only state reached is the initial one, for
    the reason C1 fails: no attempt gets past line 95. *)
Lemma reachable_states_of_the_file (s : session_state) :
  reachable s ->
  document_knowledge_base s = None /\ processed_documents s = ∅.
Proof.
  intros Hreach. rewrite (reachable_initial s Hreach). split; reflexivity.
Qed.




(** ** The trace only grows *)

Lemma grows_ret {A} (a : A) : grows (ret a).
Proof. intros st. exists []. simpl. rewrite app_nil_r. reflexivity. Qed.

Lemma grows_raise {A} (e : exn) : grows (@raise A e).
Proof. intros st. exists []. simpl. rewrite app_nil_r. reflexivity. Qed.

Lemma grows_lift {A} (r : result A) : grows (lift r).
Proof. intros st. exists []. simpl. rewrite app_nil_r. reflexivity. Qed.

Lemma grows_emit (ev : event) : grows (emit ev).
Proof. intros st. exists [ev]. reflexivity. Qed.

Lemma grows_get_session : grows get_session.
Proof. intros st. exists []. simpl. rewrite app_nil_r. reflexivity. Qed.

Lemma grows_get_environ : grows get_environ.
Proof. intros st. exists []. simpl. rewrite app_nil_r. reflexivity. Qed.

Lemma grows_bind {A B} (m : M A) (f : A -> M B) :
  grows m -> (forall a, grows (f a)) -> grows (bind m f).
Proof.
  intros Hm Hf st. unfold bind.
  destruct (Hm st) as (evs1 & H1). destruct (m st) as [[a | e] st1].
  - destruct (Hf a st1) as (evs2 & H2). exists (evs1 ++ evs2).
    rewrite H2. simpl in H1. rewrite H1, app_assoc. reflexivity.
  - exists evs1. exact H1.
Qed.

(** What follows a statement adds to the trace the statement leaves. *)
Lemma bind_trace {A B} (m : M A) (f : A -> M B) (st : script_state) :
  (forall a, grows (f a)) ->
  exists evs, trace (snd (bind m f st)) = trace (snd (m st)) ++ evs.
Proof.
  intros Hf. unfold bind. destruct (m st) as [[a | e] st1].
  - apply Hf.
  - exists []. simpl. rewrite app_nil_r. reflexivity.
Qed.

Ltac prove_grows :=
  repeat first
    [ apply grows_ret | apply grows_raise | apply grows_lift
    | apply grows_emit | apply grows_get_session | apply grows_get_environ
    | apply grows_bind; [| intros ?]
    | match goal with
      | |- grows (match ?x with _ => _ end) => destruct x
      end ].

Lemma grows_run (w : world) (a : Agent) (prompt : string) :
  grows (run w a prompt).
Proof. unfold run. prove_grows. Qed.

Lemma grows_initialize_ai_agents : grows initialize_ai_agents.
Proof. unfold initialize_ai_agents, new_Agent. prove_grows. Qed.

Lemma grows_team_analysis (w : world) (query : string) (a1 a2 a3 a4 : Agent) :
  grows (team_analysis w query a1 a2 a3 a4).
Proof.
  unfold team_analysis.
  repeat (apply grows_bind; [apply grows_run | intros ?]). apply grows_ret.
Qed.

Lemma grows_coordinator_summary (w : world) (request fallback : string)
    (v : analysis_value) :
  grows (coordinator_summary w request v fallback).
Proof.
  unfold coordinator_summary.
  apply grows_bind; [apply grows_initialize_ai_agents | intros team].
  destruct team as [[[o1 o2] o3] [coordinator |]]; [| apply grows_emit].
  apply grows_bind; [unfold content_of; prove_grows | intros c].
  apply grows_bind; [apply grows_run | intros summary]. apply grows_emit.
Qed.

Lemma grows_render_analysis (w : world) (v : analysis_value) :
  grows (render_analysis w v).
Proof.
  unfold render_analysis, render.
  apply grows_bind; [apply grows_emit | intros _].
  apply grows_bind; [apply grows_emit | intros _].
  apply grows_bind; [unfold content_of; prove_grows | intros c].
  apply grows_bind; [apply grows_emit | intros _].
  apply grows_bind; [apply grows_emit | intros _].
  apply grows_bind; [apply grows_coordinator_summary | intros _].
  apply grows_bind; [apply grows_emit | intros _].
  apply grows_coordinator_summary.
Qed.

(** ** The click on Analyze *)

Lemma generate_team_analysis_with_knowledge_base (w : world) (query : string)
    (st : script_state) (kb : PDFKnowledgeBase) :
  document_knowledge_base (session st) = Some kb ->
  generate_team_analysis w query st =
    team_analysis w query (legal_advisor_agent kb) (contract_examiner_agent kb)
      (risk_assessor_agent kb) analysis_coordinator_agent
      (extend st agents_built).
Proof.
  intros Hkb. unfold generate_team_analysis, initialize_ai_agents.
  unfold bind at 1. unfold bind at 1. unfold get_session at 1. rewrite Hkb.
  unfold new_Agent, bind, emit, ret, extend. simpl.
  rewrite <- !app_assoc. reflexivity.
Qed.

Lemma run_trace (w : world) (a : Agent) (prompt : string) (st : script_state) :
  trace (snd (run w a prompt st)) = trace st ++ [ Call_run (agent_name a) prompt ].
Proof.
  unfold run. unfold_statements. simpl.
  destruct (agent_run w (environ_OPENAI_API_KEY st) a prompt); reflexivity.
Qed.

Lemma analyze_starts (w : world) (query : string) (st : script_state)
    (kb : PDFKnowledgeBase) :
  document_knowledge_base (session st) = Some kb ->
  exists rest,
    trace (snd (analyze w query st)) = trace st ++ analysis_start query ++ rest.
Proof.
  intros Hkb. unfold analyze.
  unfold bind at 1. unfold render at 1. unfold emit at 1.
  match goal with
  | |- context [bind ?m ?f ?st1] =>
      destruct (bind_trace m f st1) as (evs1 & H1);
      [ intros v; apply grows_render_analysis
      | rewrite H1;
        rewrite (generate_team_analysis_with_knowledge_base w query st1 kb Hkb) ]
  end.
  unfold team_analysis.
  match goal with
  | |- context [bind (run w ?a ?p) ?f ?st2] =>
      destruct (bind_trace (run w a p) f st2) as (evs2 & H2);
      [ intros r1;
        repeat (apply grows_bind; [apply grows_run | intros ?]);
        apply grows_ret
      | rewrite H2, run_trace ]
  end.
  exists (evs2 ++ evs1). unfold extend, analysis_start, agents_built. simpl.
  rewrite <- !app_assoc. reflexivity.
Qed.

(** C4, as amended: with "Custom Query" selected, a click on Analyze with
    an empty text is answered by the warning alone, before any agent is
    built or run.  Any other text, one of blanks only included, is not
    rejected: it is handed to the analysis as it is, which with a
    knowledge base in the session builds the four agents and runs the
    first on it. *)
Theorem empty_query_is_rejected (w : world) (inp : inputs) (st : script_state) :
  analyze_clicked inp = true ->
  analysis_type_selection inp = Custom_Query ->
  match custom_query inp with
  | EmptyString =>
      analyze_button w inp st =
        (Ok tt, extend st [ Render (st_warning "Please enter a query.") ])
  | String _ _ =>
      analyze_button w inp st = analyze w (custom_query inp) st /\
      match document_knowledge_base (session st) with
      | Some kb =>
          exists rest,
            trace (snd (analyze_button w inp st))
              = trace st ++ analysis_start (custom_query inp) ++ rest
      | None => True
      end
  end.
Proof.
  intros Hclick Hcustom.
  assert (Hrun : analyze_button w inp st =
                 if str_truthy (custom_query inp)
                 then analyze w (custom_query inp) st
                 else (Ok tt, extend st [ Render (st_warning "Please enter a query.") ])).
  { unfold analyze_button, analysis_query_input. rewrite Hclick, Hcustom.
    destruct (str_truthy (custom_query inp)); reflexivity. }
  destruct (custom_query inp) as [| c text] eqn:Hquery; simpl in Hrun.
  - exact Hrun.
  - split; [exact Hrun |].
    destruct (document_knowledge_base (session st)) as [kb |] eqn:Hkb;
      [| exact I].
    rewrite Hrun. apply (analyze_starts w _ st kb). exact Hkb.
Qed.

Lemma empty_query_is_rejected_witness :
  analyze_clicked (custom_click "") = true /\
  analysis_type_selection (custom_click "") = Custom_Query /\
  analyze_button obliging_world (custom_click "") (start loaded_session) =
    (Ok tt, extend (start loaded_session)
              [ Render (st_warning "Please enter a query.") ]).
Proof.
  split; [reflexivity |]. split; [reflexivity |].
  exact (empty_query_is_rejected obliging_world (custom_click "")
           (start loaded_session) eq_refl eq_refl).
Defined.

(** C4 as stated fails: a text of three blanks is not rejected.  No
    warning is shown, the four agents are built and the first is run on
    the blanks. *)
Lemma blank_query_reaches_the_agents :
  let r := analyze_button obliging_world (custom_click "   ")
             (start loaded_session) in
  ~ In (Render (st_warning "Please enter a query.")) (trace (snd r)) /\
  In (Call_Agent "LegalAdvisor") (trace (snd r)) /\
  In (Call_run "LegalAdvisor" "Research legal aspects of:    ") (trace (snd r)).
Proof.
  split; [| split].
  - vm_compute. intros H.
    repeat (destruct H as [H | H]; [discriminate H |]). destruct H.
  - vm_compute. find_member.
  - vm_compute. find_member.
Qed.

(** ** What the coordinator is sent *)



(** ** Failures *)

Lemma run_script_in_raises (g : namespace) (w : world) (inp : inputs)
    (environ : option string) (previous : option session_state) :
  match fst (run_script_in g w inp environ previous) with
  | Ok _ => True
  | Raise e => exists k a prompt, agent_run w k a prompt = Raise e
  end.
Proof.
  unfold run_script_in, script_in. unfold bind at 1.
  rewrite page_top_trace.
  match goal with
  | |- context [bind (upload_handler_in g w ?cs ?ov ?up) ?f ?st1] =>
      unfold bind at 1;
      pose proof (upload_handler_in_returns g w cs ov up st1) as (Hok & _);
      destruct (upload_handler_in g w cs ov up st1) as [[[] | e] st2];
        simpl in Hok; [| discriminate]
  end.
  pose proof (spec_main_interface w (session st2) (environ_OPENAI_API_KEY st2)
                inp st2 eq_refl eq_refl) as Hmain.
  destruct (main_interface w inp st2) as [[[] | e] st3]; simpl; [exact I |].
  destruct Hmain as (_ & _ & (a & prompt & Hrun)).
  exists (environ_OPENAI_API_KEY st2), a, prompt. exact Hrun.
Qed.


(** Lines 291-295 applied to the text of line 222: reading [.content] of
    a [str] raises, and nothing catches it. *)
Lemma rendering_the_initialization_error_raises (w : world) (st : script_state) :
  fst (render_analysis w (Value_str initialization_error) st)
    = Raise (Exn "AttributeError" "'str' object has no attribute 'content'").
Proof. reflexivity. Qed.



(** * Further properties of the script *)

(** ** Executions of the file as written *)

(** X1: whatever session an execution of the file starts from, whatever
    is uploaded or clicked and whatever the collaborators do, the session
    is the same afterwards: no execution stores a knowledge base or adds a
    name to the processed set. *)
Theorem execution_leaves_session_unchanged (w : world) (inp : inputs)
    (environ : option string) (s : session_state) :
  session (snd (run_script w inp environ (Some s))) = s /\
  session (snd (run_script w inp environ None)) = initial_session.
Proof.
  split.
  - apply (run_script_keeps_session w inp environ (Some s)).
  - apply (run_script_keeps_session w inp environ None).
Qed.

(** X2: in a session that starts new, no execution of the file ever gets
    to a knowledge base, to pypdf or to an agent: the trace holds rendered
    elements and at most the temporary-file write. *)
Theorem new_session_never_reaches_an_agent (s : session_state) (w : world)
    (inp : inputs) (environ : option string) :
  reachable s ->
  fst (run_script w inp environ (Some s)) = Ok tt /\
  existsb reaches_knowledge_base_or_agent
    (trace (snd (run_script w inp environ (Some s)))) = false.
Proof.
  intros Hreach. rewrite (reachable_initial s Hreach).
  rewrite run_from_initial_session. simpl.
  split; [reflexivity |].
  destruct (uploaded_document inp) as [up |]; reflexivity.
Qed.

Lemma new_session_never_reaches_an_agent_witness :
  let s := session (snd (run_script obliging_world
                           (upload_input "sk-test" 1000 200 contract_pdf false)
                           None None)) in
  reachable s /\
  existsb reaches_knowledge_base_or_agent
    (trace (snd (run_script obliging_world
                   (upload_input "sk-test" 1000 200 contract_pdf true)
                   None (Some s)))) = false.
Proof.
  intros s.
  assert (Hreach : reachable s) by apply reachable_first.
  split; [exact Hreach |].
  exact (proj2 (new_session_never_reaches_an_agent s obliging_world
                  (upload_input "sk-test" 1000 200 contract_pdf true)
                  None Hreach)).
Defined.

(** ** What an execution keeps, in any namespace *)

Lemma run_script_in_environ (g : namespace) (w : world) (inp : inputs)
    (environ : option string) (previous : option session_state) :
  environ_OPENAI_API_KEY (snd (run_script_in g w inp environ previous)) =
    if str_truthy (api_key_input inp)
    then Some (api_key_input inp)
    else environ.
Proof.
  unfold run_script_in, script_in. unfold bind at 1.
  rewrite page_top_trace.
  match goal with
  | |- context [bind (upload_handler_in g w ?cs ?ov ?up) ?f ?st1] =>
      unfold bind at 1;
      pose proof (upload_handler_in_returns g w cs ov up st1) as (Hok & Hk & _);
      destruct (upload_handler_in g w cs ov up st1) as [[[] | e] st2];
        simpl in Hok, Hk; [| discriminate]
  end.
  pose proof (spec_main_interface w (session st2) (environ_OPENAI_API_KEY st2)
                inp st2 eq_refl eq_refl) as Hmain.
  destruct (main_interface w inp st2) as [[[] | e] st3]; simpl;
    destruct Hmain as (_ & Hk3 & _); rewrite Hk3, Hk; reflexivity.
Qed.

(** X3: the API key of the process after an execution is the text of the
    key field when that is not empty, and otherwise the key the process
    had before: emptying the field does not take the key away, and
    neither the upload nor the analysis touches it. *)
Theorem api_key_after_execution (g : namespace) (w : world) (inp : inputs)
    (environ : option string) (previous : option session_state) :
  environ_OPENAI_API_KEY (snd (run_script_in g w inp environ previous)) =
    match api_key_input inp with
    | EmptyString => environ
    | String _ _ => Some (api_key_input inp)
    end.
Proof.
  rewrite run_script_in_environ.
  destruct (api_key_input inp); reflexivity.
Qed.

Lemma after_attempt_grows (g : namespace) (w : world) (cs ov : Z)
    (up : UploadedFile) (s : session_state) :
  processed_documents s ⊆ processed_documents (after_attempt g w cs ov up s) /\
  match document_knowledge_base s,
        document_knowledge_base (after_attempt g w cs ov up s) with
  | Some _, None => False
  | _, _ => True
  end.
Proof.
  unfold after_attempt.
  destruct (tempfile_write w (uf_getvalue up)) as [path | e].
  - destruct (construction g w path cs ov) as [kb | e].
    + destruct (kb_load w kb); simpl; split;
        try (destruct (document_knowledge_base s); exact I).
      * reflexivity.
      * apply union_subseteq_r.
    + split; [reflexivity |]. destruct (document_knowledge_base s); exact I.
  - split; [reflexivity |]. destruct (document_knowledge_base s); exact I.
Qed.

(** X4: from one execution to the next the session only grows, in any
    namespace and whatever the collaborators do: every name in the
    processed set stays in it, and a session that has a knowledge base
    still has one. *)
Theorem session_only_grows (g : namespace) (w : world) (inp : inputs)
    (environ : option string) (s : session_state) :
  processed_documents s
    ⊆ processed_documents
        (session (snd (run_script_in g w inp environ (Some s)))) /\
  match document_knowledge_base s,
        document_knowledge_base
          (session (snd (run_script_in g w inp environ (Some s)))) with
  | Some _, None => False
  | _, _ => True
  end.
Proof.
  destruct (run_script_in_session g w inp environ (Some s)) as [Hrun Htop].
  rewrite Hrun.
  match goal with
  | |- context [upload_handler_in g w ?cs ?ov ?up ?st1] =>
      destruct (upload_handler_in_returns g w cs ov up st1)
        as (_ & _ & [Hsame | (up' & _ & _ & Hafter)])
  end.
  - rewrite Hsame, Htop. simpl. split; [reflexivity |].
    destruct (document_knowledge_base s); exact I.
  - rewrite Hafter, Htop. simpl. apply after_attempt_grows.
Qed.

(** ** Without a knowledge base *)

(** X6: without a knowledge base in the session there is no analysis.
    [generate_team_analysis] hands back the text of line 222 having built
    and run no agent, and the main section renders the request to upload a
    document and nothing else, whatever is selected, typed or clicked. *)
Theorem no_knowledge_base_no_analysis (w : world) (inp : inputs)
    (query : string) (st : script_state) :
  document_knowledge_base (session st) = None ->
  generate_team_analysis w query st = (Ok (Value_str initialization_error), st) /\
  main_interface w inp st = (Ok tt, extend st no_document_events).
Proof.
  intros Hkb. split.
  - unfold generate_team_analysis, initialize_ai_agents. unfold_statements.
    rewrite Hkb. reflexivity.
  - unfold main_interface. unfold_statements. rewrite Hkb.
    unfold extend, no_document_events. simpl.
    rewrite <- app_assoc. reflexivity.
Qed.

Lemma no_knowledge_base_no_analysis_witness :
  document_knowledge_base (session (start initial_session)) = None /\
  main_interface agents_fail_world (custom_click "Is clause 4 enforceable?")
    (start initial_session)
    = (Ok tt, extend (start initial_session) no_document_events).
Proof.
  split; [reflexivity |].
  exact (proj2 (no_knowledge_base_no_analysis agents_fail_world
                  (custom_click "Is clause 4 enforceable?") "any"
                  (start initial_session) eq_refl)).
Defined.

(** ** The analysis and the state *)

Lemma grows_analyze (w : world) (query : string) : grows (analyze w query).
Proof.
  unfold analyze, generate_team_analysis, render.
  apply grows_bind; [apply grows_emit | intros _].
  apply grows_bind; [| intros v; apply grows_render_analysis].
  apply grows_bind; [apply grows_initialize_ai_agents | intros team].
  destruct team as [[[[a1 |] [a2 |]] [a3 |]] [a4 |]];
    first [ apply grows_team_analysis | apply grows_ret ].
Qed.

Lemma grows_main_interface (w : world) (inp : inputs) :
  grows (main_interface w inp).
Proof.
  unfold main_interface, analyze_button, render.
  apply grows_bind; [apply grows_get_session | intros s].
  destruct (document_knowledge_base s).
  - apply grows_bind; [apply grows_emit | intros _].
    apply grows_bind; [apply grows_emit | intros _].
    apply grows_bind;
      [ destruct (bool_decide (processed_documents s = ∅));
          [apply grows_ret | apply grows_emit]
      | intros _ ].
    destruct (analyze_clicked inp); [| apply grows_ret].
    destruct (negb (str_truthy (analysis_query_input inp)));
      [apply grows_emit | apply grows_analyze].
  - apply grows_bind; [apply grows_emit | intros _]. apply grows_emit.
Qed.

(** X7: the main section, analysis included, changes neither the session
    nor the API key, whether it returns or an agent raises; it only adds
    to the trace, and what it raises is what an agent raised. *)
Theorem analysis_keeps_state (w : world) (inp : inputs) (st : script_state) :
  session (snd (main_interface w inp st)) = session st /\
  environ_OPENAI_API_KEY (snd (main_interface w inp st))
    = environ_OPENAI_API_KEY st /\
  (exists evs, trace (snd (main_interface w inp st)) = trace st ++ evs) /\
  match fst (main_interface w inp st) with
  | Ok _ => True
  | Raise e => agent_failure w (environ_OPENAI_API_KEY st) e
  end.
Proof.
  pose proof (spec_main_interface w (session st) (environ_OPENAI_API_KEY st)
                inp st eq_refl eq_refl) as Hmain.
  pose proof (grows_main_interface w inp st) as Hgrows.
  destruct (main_interface w inp st) as [[[] | e] st']; simpl in *;
    destruct Hmain as (Hs & Hk & Hf); repeat split; auto.
Qed.

(** ** The order of the runs *)

Lemma team_analysis_runs (w : world) (query : string) (st : script_state)
    (a1 a2 a3 a4 : Agent) :
  let k := environ_OPENAI_API_KEY st in
  let p1 := "Research legal aspects of: " +:+ query in
  let p2 := "Analyze contract for: " +:+ query in
  let p3 := "Assess risks and strategy for: " +:+ query in
  team_analysis w query a1 a2 a3 a4 st =
    match agent_run w k a1 p1 with
    | Raise e => (Raise e, extend st [ Call_run (agent_name a1) p1 ])
    | Ok r1 =>
        match agent_run w k a2 p2 with
        | Raise e =>
            (Raise e, extend st [ Call_run (agent_name a1) p1;
                                  Call_run (agent_name a2) p2 ])
        | Ok r2 =>
            match agent_run w k a3 p3 with
            | Raise e =>
                (Raise e, extend st [ Call_run (agent_name a1) p1;
                                      Call_run (agent_name a2) p2;
                                      Call_run (agent_name a3) p3 ])
            | Ok r3 =>
                let p4 := coordinator_prompt (embedded r1) (embedded r2)
                            (embedded r3) in
                (match agent_run w k a4 p4 with
                 | Raise e => Raise e
                 | Ok r4 => Ok (Value_response r4)
                 end,
                 extend st [ Call_run (agent_name a1) p1;
                             Call_run (agent_name a2) p2;
                             Call_run (agent_name a3) p3;
                             Call_run (agent_name a4) p4 ])
            end
        end
    end.
Proof.
  intros k p1 p2 p3. subst k p1 p2 p3.
  unfold team_analysis, run, extend. unfold_statements. simpl.
  destruct (agent_run w _ a1 _) as [r1 | e]; simpl; [| reflexivity].
  destruct (agent_run w _ a2 _) as [r2 | e]; simpl;
    [| rewrite <- ?app_assoc; reflexivity].
  destruct (agent_run w _ a3 _) as [r3 | e]; simpl;
    [| rewrite <- ?app_assoc; reflexivity].
  destruct (agent_run w _ a4 _) as [r4 | e]; simpl;
    rewrite <- ?app_assoc; reflexivity.
Qed.

(** X8: with a knowledge base in the session, the four agents are built
    and then run one after the other, advisor, examiner, assessor,
    coordinator, each only when the one before has returned: the first run
    that raises ends the analysis with its exception, and no later agent
    is run.  When all four return, the value is the coordinator's
    response. *)
Theorem runs_stop_at_the_first_failure (w : world) (query : string)
    (st : script_state) (kb : PDFKnowledgeBase) :
  document_knowledge_base (session st) = Some kb ->
  let k := environ_OPENAI_API_KEY st in
  let p1 := "Research legal aspects of: " +:+ query in
  let p2 := "Analyze contract for: " +:+ query in
  let p3 := "Assess risks and strategy for: " +:+ query in
  let run1 := Call_run "LegalAdvisor" p1 in
  let run2 := Call_run "ContractExaminer" p2 in
  let run3 := Call_run "RiskAssessor" p3 in
  generate_team_analysis w query st =
    match agent_run w k (legal_advisor_agent kb) p1 with
    | Raise e => (Raise e, extend st (agents_built ++ [ run1 ]))
    | Ok r1 =>
        match agent_run w k (contract_examiner_agent kb) p2 with
        | Raise e => (Raise e, extend st (agents_built ++ [ run1; run2 ]))
        | Ok r2 =>
            match agent_run w k (risk_assessor_agent kb) p3 with
            | Raise e =>
                (Raise e, extend st (agents_built ++ [ run1; run2; run3 ]))
            | Ok r3 =>
                (match agent_run w k analysis_coordinator_agent
                         (coordinator_prompt (embedded r1) (embedded r2)
                            (embedded r3)) with
                 | Raise e => Raise e
                 | Ok r4 => Ok (Value_response r4)
                 end,
                 extend st (agents_built ++ team_runs query r1 r2 r3))
            end
        end
    end.
Proof.
  intros Hkb k p1 p2 p3 run1 run2 run3. subst k p1 p2 p3 run1 run2 run3.
  rewrite (generate_team_analysis_with_knowledge_base w query st kb Hkb).
  rewrite team_analysis_runs. unfold extend, team_runs. simpl.
  destruct (agent_run w _ (legal_advisor_agent kb) _) as [r1 | e];
    [| rewrite <- ?app_assoc; reflexivity].
  destruct (agent_run w _ (contract_examiner_agent kb) _) as [r2 | e];
    [| rewrite <- ?app_assoc; reflexivity].
  destruct (agent_run w _ (risk_assessor_agent kb) _) as [r3 | e];
    rewrite <- ?app_assoc; reflexivity.
Qed.

Lemma runs_stop_at_the_first_failure_witness :
  document_knowledge_base (session (start loaded_session)) = Some contract_kb /\
  generate_team_analysis agents_fail_world "termination" (start loaded_session)
    = (Raise connection_error,
       extend (start loaded_session)
         (agents_built ++
          [ Call_run "LegalAdvisor" "Research legal aspects of: termination" ])).
Proof.
  split; [reflexivity |].
  exact (runs_stop_at_the_first_failure agents_fail_world "termination"
           (start loaded_session) contract_kb eq_refl).
Defined.

(** ** The summaries *)

Lemma coordinator_summary_runs (w : world) (request fallback : string)
    (r : RunResponse) (st : script_state) (kb : PDFKnowledgeBase) :
  document_knowledge_base (session st) = Some kb ->
  coordinator_summary w request (Value_response r) fallback st =
    match agent_run w (environ_OPENAI_API_KEY st) analysis_coordinator_agent
            (summary_prompt request (content r)) with
    | Ok answer =>
        (Ok tt, extend st (summary_events request fallback (content r) answer))
    | Raise e =>
        (Raise e,
         extend st (agents_built ++
                    [ Call_run "AnalysisCoordinator"
                        (summary_prompt request (content r)) ]))
    end.
Proof.
  intros Hkb.
  unfold coordinator_summary, initialize_ai_agents, content_of,
    summary_events, summary_prompt, agents_built, extend.
  unfold_statements. rewrite Hkb. simpl.
  destruct (agent_run w _ analysis_coordinator_agent _) as [answer | e]; simpl;
    rewrite <- ?app_assoc; reflexivity.
Qed.

(** X9: each of the two summary tabs builds the four agents again and
    runs the coordinator once, on the request followed by the first 300
    characters of the text of the report content and by "...".  A report
    with no content is summarised as the text "None".  When the
    coordinator returns, its content is rendered, or the fallback when it
    has none; when it raises, the exception leaves the tab. *)
Theorem summary_asks_about_300_characters (w : world)
    (request fallback : string) (r : RunResponse) (st : script_state)
    (kb : PDFKnowledgeBase) :
  document_knowledge_base (session st) = Some kb ->
  coordinator_summary w request (Value_response r) fallback st =
    match agent_run w (environ_OPENAI_API_KEY st) analysis_coordinator_agent
            (summary_prompt request (content r)) with
    | Ok answer =>
        (Ok tt, extend st (summary_events request fallback (content r) answer))
    | Raise e =>
        (Raise e,
         extend st (agents_built ++
                    [ Call_run "AnalysisCoordinator"
                        (summary_prompt request (content r)) ]))
    end /\
  summary_prompt request (content r)
    = request +:+ str_slice_to 300 (str_of_content (content r)) +:+ "..." /\
  str_len (str_slice_to 300 (str_of_content (content r)))
    = Nat.min 300 (str_len (str_of_content (content r))) /\
  (exists rest,
     str_of_content (content r)
       = str_slice_to 300 (str_of_content (content r)) +:+ rest) /\
  str_len (summary_prompt request (content r)) <= str_len request + 303 /\
  summary_prompt request None = request +:+ "None...".
Proof.
  intros Hkb. split; [apply (coordinator_summary_runs _ _ _ _ _ kb Hkb) |].
  split; [reflexivity |].
  split; [apply str_slice_to_length |].
  split; [apply str_slice_to_prefix |].
  split; [| reflexivity].
  unfold summary_prompt. rewrite !str_len_append, str_slice_to_length.
  change (str_len "...") with 3. lia.
Qed.

Lemma summary_asks_about_300_characters_witness :
  document_knowledge_base (session (start loaded_session)) = Some contract_kb /\
  coordinator_summary silent_coordinator_world
    "Extract 5 key legal points from: "
    (Value_response {| content := None; response_str := "" |})
    "No summary generated." (start loaded_session)
  = (Ok tt,
     extend (start loaded_session)
       (agents_built ++
        [ Call_run "AnalysisCoordinator"
            "Extract 5 key legal points from: None...";
          Render (st_markdown "No summary generated.") ])).
Proof.
  split; [reflexivity |].
  exact (proj1 (summary_asks_about_300_characters silent_coordinator_world
                  "Extract 5 key legal points from: " "No summary generated."
                  {| content := None; response_str := "" |}
                  (start loaded_session) contract_kb eq_refl)).
Defined.

(** ** A whole analysis *)

Lemma content_or_not_empty (c : option string) (default : string) :
  default <> "" -> content_or c default <> "".
Proof.
  intros Hdefault. unfold content_or.
  destruct c as [[| ch text] |]; simpl; try exact Hdefault. discriminate.
Qed.

(** X10: an analysis in which every run returns builds the four agents
    three times, runs an agent six times, in the order advisor, examiner,
    assessor, coordinator, coordinator for the key points, coordinator for
    the recommendations, and renders three texts: the report, the key
    points and the recommendations.  None of the three is empty: a
    response without content is shown as its fallback text. *)
Theorem successful_analysis (w : world) (query : string) (st : script_state)
    (kb : PDFKnowledgeBase) (r1 r2 r3 r4 r5 r6 : RunResponse) :
  let k := environ_OPENAI_API_KEY st in
  document_knowledge_base (session st) = Some kb ->
  agent_run w k (legal_advisor_agent kb)
    ("Research legal aspects of: " +:+ query) = Ok r1 ->
  agent_run w k (contract_examiner_agent kb)
    ("Analyze contract for: " +:+ query) = Ok r2 ->
  agent_run w k (risk_assessor_agent kb)
    ("Assess risks and strategy for: " +:+ query) = Ok r3 ->
  agent_run w k analysis_coordinator_agent
    (coordinator_prompt (embedded r1) (embedded r2) (embedded r3)) = Ok r4 ->
  agent_run w k analysis_coordinator_agent
    (summary_prompt "Extract 5 key legal points from: " (content r4)) = Ok r5 ->
  agent_run w k analysis_coordinator_agent
    (summary_prompt "Provide 3 specific legal recommendations from: "
       (content r4)) = Ok r6 ->
  analyze w query st =
    (Ok tt, extend st (successful_analysis_events query r1 r2 r3 r4 r5 r6)) /\
  content_or (content r4) "No response generated." <> "" /\
  content_or (content r5) "No summary generated." <> "" /\
  content_or (content r6) "No recommendations generated." <> "".
Proof.
  intros k Hkb H1 H2 H3 H4 H5 H6. subst k.
  split; [| repeat split; apply content_or_not_empty; discriminate].
  unfold analyze, render_analysis, content_of.
  unfold bind at 1. unfold render at 1. unfold emit at 1.
  unfold bind at 1.
  match goal with
  | |- context [generate_team_analysis w query ?st1] =>
      rewrite (generate_team_analysis_with_knowledge_base w query st1 kb Hkb);
      rewrite team_analysis_runs; simpl environ_OPENAI_API_KEY;
      rewrite H1, H2, H3; cbv beta iota zeta; rewrite H4
  end.
  unfold bind at 1. unfold render at 1. unfold emit at 1.
  unfold bind at 1. unfold render at 1. unfold emit at 1.
  unfold bind at 1. unfold ret at 1.
  unfold bind at 1. unfold render at 1. unfold emit at 1.
  unfold bind at 1. unfold render at 1. unfold emit at 1.
  unfold bind at 1.
  match goal with
  | |- context [coordinator_summary w ?req (Value_response r4) ?fb ?st2] =>
      rewrite (coordinator_summary_runs w req fb r4 st2 kb Hkb);
      simpl environ_OPENAI_API_KEY; rewrite H5
  end.
  unfold bind at 1. unfold render at 1. unfold emit at 1.
  match goal with
  | |- context [coordinator_summary w ?req (Value_response r4) ?fb ?st3] =>
      rewrite (coordinator_summary_runs w req fb r4 st3 kb Hkb);
      simpl environ_OPENAI_API_KEY; rewrite H6
  end.
  unfold extend, successful_analysis_events. simpl.
  rewrite <- ?app_assoc. simpl. reflexivity.
Qed.

Lemma successful_analysis_witness :
  let st := start loaded_session in
  let k := environ_OPENAI_API_KEY st in
  let report := answer "Findings of AnalysisCoordinator" in
  document_knowledge_base (session st) = Some contract_kb /\
  agent_run obliging_world k analysis_coordinator_agent
    (summary_prompt "Extract 5 key legal points from: " (content report))
    = Ok report /\
  analyze obliging_world "termination" st =
    (Ok tt,
     extend st
       (successful_analysis_events "termination"
          (answer "Findings of LegalAdvisor")
          (answer "Findings of ContractExaminer")
          (answer "Findings of RiskAssessor") report report report)).
Proof.
  intros st k report.
  split; [reflexivity |]. split; [reflexivity |].
  exact (proj1 (successful_analysis obliging_world "termination" st contract_kb
                  (answer "Findings of LegalAdvisor")
                  (answer "Findings of ContractExaminer")
                  (answer "Findings of RiskAssessor") report report report
                  eq_refl eq_refl eq_refl eq_refl eq_refl eq_refl eq_refl)).
Defined.

(** ** The size of the coordinator prompt *)

Lemma coordinator_prompt_length (a b c : string) :
  str_len (coordinator_prompt a b c)
    = coordinator_prompt_frame + (str_len a + str_len b + str_len c).
Proof.
  unfold coordinator_prompt_frame, coordinator_prompt.
  rewrite !str_len_append. simpl. lia.
Qed.

(** X11: the prompt sent to the coordinator is the 209 characters of its
    fixed text and the three embedded answers, so at most 1709
    characters, however long the answers of the specialists are. *)
Theorem coordinator_prompt_is_bounded (r1 r2 r3 : RunResponse) :
  str_len (coordinator_prompt (embedded r1) (embedded r2) (embedded r3))
    = 209 + (Nat.min 500 (str_len (response_str r1))
             + Nat.min 500 (str_len (response_str r2))
             + Nat.min 500 (str_len (response_str r3))) /\
  str_len (coordinator_prompt (embedded r1) (embedded r2) (embedded r3))
    <= 1709.
Proof.
  rewrite coordinator_prompt_length. unfold embedded.
  rewrite !str_slice_to_length.
  change coordinator_prompt_frame with 209. lia.
Qed.

(** ** The preview and the registration *)

Lemma preview_document_cases (w : world) (path : string) (st : script_state) :
  preview_document w path st =
    (Ok tt,
     extend st
       (Call_pypdf path ::
        match pypdf_pages w path with
        | Raise e =>
            [ Render (st_warning ("Could not preview PDF content: "
                                  +:+ exn_message e)) ]
        | Ok [] => [ Render (st_info ("📄 PDF Pages: " +:+ pretty 0)) ]
        | Ok (first :: rest) =>
            Render (st_info ("📄 PDF Pages: "
                             +:+ pretty (length (first :: rest))))
            :: match extract_text first with
               | Ok text =>
                   [ Render (st_text_area_disabled "📝 First Page Preview:"
                               (text_preview text)) ]
               | Raise e =>
                   [ Render (st_warning ("Could not preview PDF content: "
                                         +:+ exn_message e)) ]
               end
        end)).
Proof.
  unfold preview_document, extend. unfold_statements. simpl.
  destruct (pypdf_pages w path) as [[| first rest] | e]; simpl.
  - rewrite <- ?app_assoc. reflexivity.
  - destruct (extract_text first) as [text | e]; simpl;
      rewrite <- ?app_assoc; reflexivity.
  - rewrite <- ?app_assoc. reflexivity.
Qed.

(** X12: the preview never fails the upload and never touches the
    session.  When pypdf cannot read the file the page shows the warning
    with the text of the exception; a PDF without pages gets its page
    count, 0, and no preview; when the text of the first page cannot be
    extracted the page count is followed by the warning. *)
Theorem preview_failure_is_a_warning (w : world) (path : string)
    (st : script_state) :
  fst (preview_document w path st) = Ok tt /\
  session (snd (preview_document w path st)) = session st /\
  trace (snd (preview_document w path st)) =
    trace st ++
    Call_pypdf path ::
    match pypdf_pages w path with
    | Raise e =>
        [ Render (st_warning ("Could not preview PDF content: "
                              +:+ exn_message e)) ]
    | Ok [] => [ Render (st_info "📄 PDF Pages: 0") ]
    | Ok (first :: rest) =>
        Render (st_info ("📄 PDF Pages: " +:+ pretty (length (first :: rest))))
        :: match extract_text first with
           | Ok text =>
               [ Render (st_text_area_disabled "📝 First Page Preview:"
                           (text_preview text)) ]
           | Raise e =>
               [ Render (st_warning ("Could not preview PDF content: "
                                     +:+ exn_message e)) ]
           end
    end.
Proof.
  rewrite preview_document_cases. repeat split.
Qed.

(** X13: a name is registered before the preview is tried: with a
    knowledge base in the session and a file pypdf cannot read, lines
    104-137 return, the name is in the processed set, the success message
    has been reported, and the last element rendered is the warning. *)
Theorem unreadable_pdf_is_still_registered (w : world) (up : UploadedFile)
    (path : string) (st : script_state) (kb : PDFKnowledgeBase) (e : exn) :
  document_knowledge_base (session st) = Some kb ->
  pypdf_pages w path = Raise e ->
  register_document w up path st =
    (Ok tt,
     update st (Some kb) ({[ uf_name up ]} ∪ processed_documents (session st))
       [ Call_search "test";
         Render (verification_report (kb_search w kb "test"));
         processed_success;
         Render (st_info ("📊 Document Details: " +:+ uf_name up
                          +:+ " (" +:+ pretty (uf_size up) +:+ " bytes)"));
         Render (st_info ("🔍 Knowledge Base Status: Active with "
                          +:+ pretty (size ({[ uf_name up ]}
                                            ∪ processed_documents (session st)))
                          +:+ " document(s)"));
         Call_pypdf path;
         Render (st_warning ("Could not preview PDF content: "
                             +:+ exn_message e)) ]).
Proof.
  intros Hkb Hpdf. unfold register_document.
  unfold bind at 1. rewrite (verify_knowledge_base_runs w st kb Hkb).
  unfold add_processed, render, emit, get_session, put_session, bind at 1 2 3 4 5 6.
  unfold extend at 1. simpl. rewrite Hkb.
  unfold bind. rewrite preview_document_cases, Hpdf.
  unfold extend, update, processed_success. simpl.
  rewrite <- ?app_assoc. reflexivity.
Qed.

Lemma unreadable_pdf_is_still_registered_witness :
  let st := start {| document_knowledge_base := Some contract_kb;
                     processed_documents := ∅ |} in
  document_knowledge_base (session st) = Some contract_kb /\
  pypdf_pages unreadable_pdf_world temp_path = Raise pypdf_error /\
  fst (register_document unreadable_pdf_world contract_pdf temp_path st) = Ok tt.
Proof.
  intros st.
  split; [reflexivity |]. split; [reflexivity |].
  rewrite (unreadable_pdf_is_still_registered unreadable_pdf_world contract_pdf
             temp_path st contract_kb pypdf_error eq_refl eq_refl).
  reflexivity.
Defined.

(** ** The preview text *)

(** What follows a text starts a character of its own. *)
Lemma str_slice_to_append (s t : string) :
  str_slice_to 0 t = "" ->
  str_slice_to (str_len s) (s +:+ t) = s.
Proof.
  intros Ht. induction s as [| c s IH]; [exact Ht |].
  rewrite str_append_cons. simpl.
  destruct (is_continuation c) eqn:Hc; simpl; rewrite ?Hc, IH; reflexivity.
Qed.

Lemma str_slice_to_twice (n : nat) (s : string) :
  str_slice_to n (str_slice_to n s) = str_slice_to n s.
Proof.
  apply str_slice_to_short. rewrite str_slice_to_length. lia.
Qed.

(** X14: the preview of a preview is that preview, and a preview starts
    with the same 200 characters as the text it was made from. *)
Theorem text_preview_is_stable (text : string) :
  text_preview (text_preview text) = text_preview text /\
  str_slice_to 200 (text_preview text) = str_slice_to 200 text.
Proof.
  destruct (Nat.le_gt_cases (str_len text) 200) as [Hshort | Hlong].
  - rewrite (text_preview_short text Hshort). split; [| reflexivity].
    apply text_preview_short. exact Hshort.
  - destruct (text_preview_long text Hlong) as [Hshape Hlen].
    assert (Hcut : str_len (str_slice_to 200 text) = 200).
    { rewrite str_slice_to_length. lia. }
    assert (Hhead : str_slice_to 200 (text_preview text) = str_slice_to 200 text).
    { rewrite Hshape. rewrite <- Hcut at 1.
      apply str_slice_to_append. reflexivity. }
    split; [| exact Hhead].
    assert (Hagain : 200 < str_len (text_preview text)) by lia.
    destruct (text_preview_long (text_preview text) Hagain) as [Hshape' _].
    rewrite Hshape', Hhead. symmetry. exact Hshape.
Qed.

(** ** Every attempt of the file as written *)

(** X15: in the file as written every ingestion attempt, whatever the
    name, the bytes and the chunk parameters, writes the temporary file
    and ends with the error message and nothing else: with the text of the
    exception of the write when that raises, and otherwise with "name
    'DocumentChunking' is not defined".  No knowledge base is built or
    loaded and the session is as before. *)
Theorem every_attempt_reports_an_error (w : world) (cs ov : Z)
    (up : UploadedFile) (st : script_state) :
  uf_name up ∉ processed_documents (session st) ->
  upload_handler w cs ov (Some up) st =
    (Ok tt,
     extend st
       [ Render (st_spinner "Processing document...");
         Call_tempfile_write;
         Render (st_error
                   ("Error processing document: " +:+
                    match tempfile_write w (uf_getvalue up) with
                    | Raise e => exn_message e
                    | Ok _ => "name 'DocumentChunking' is not defined"
                    end)) ]).
Proof.
  intros Hnew. rewrite (upload_handler_reports w cs ov up st Hnew).
  unfold extend, ingestion_error.
  destruct (tempfile_write w (uf_getvalue up)); reflexivity.
Qed.

Lemma every_attempt_reports_an_error_witness :
  (uf_name addendum_pdf ∉ processed_documents (session (start loaded_session))) /\
  upload_handler obliging_world 500 50 (Some addendum_pdf) (start loaded_session) =
    (Ok tt,
     extend (start loaded_session)
       [ Render (st_spinner "Processing document...");
         Call_tempfile_write;
         Render (st_error
                   "Error processing document: name 'DocumentChunking' is not defined") ]).
Proof.
  assert (H : uf_name addendum_pdf
              ∉ processed_documents (session (start loaded_session))).
  { vm_compute. discriminate. }
  split; [exact H |].
  exact (every_attempt_reports_an_error obliging_world 500 50 addendum_pdf
           (start loaded_session) H).
Defined.

(** ** The preset queries *)

(** X16: with one of the four preset analysis types selected, the text of
    the custom query field is not looked at: a click on Analyze always
    runs the analysis on the preset query, never the warning for an empty
    query. *)
Theorem preset_query_is_always_analyzed (w : world) (inp : inputs)
    (st : script_state) :
  analysis_type_selection inp <> Custom_Query ->
  analyze_clicked inp = true ->
  analysis_query_input inp
    = predefined_analysis_queries (analysis_type_selection inp) /\
  str_truthy (analysis_query_input inp) = true /\
  analyze_button w inp st =
    analyze w (predefined_analysis_queries (analysis_type_selection inp)) st.
Proof.
  intros Hpreset Hclick. unfold analyze_button, analysis_query_input.
  rewrite Hclick.
  destruct (analysis_type_selection inp); try (repeat split; reflexivity).
  exfalso. apply Hpreset. reflexivity.
Qed.

Lemma preset_query_is_always_analyzed_witness :
  analysis_type_selection (contract_review_click None) <> Custom_Query /\
  analyze_clicked (contract_review_click None) = true /\
  analyze_button obliging_world (contract_review_click None) (start loaded_session)
    = analyze obliging_world (predefined_analysis_queries Contract_Review)
        (start loaded_session).
Proof.
  assert (H : analysis_type_selection (contract_review_click None) <> Custom_Query)
    by discriminate.
  split; [exact H |]. split; [reflexivity |].
  exact (proj2 (proj2 (preset_query_is_always_analyzed obliging_world
                         (contract_review_click None) (start loaded_session)
                         H eq_refl))).
Defined.

(** ** The launcher page *)

(** X17: the launcher page starts nothing.  It renders its notice, and
    after a click on its button the two messages that say which command to
    run; it leaves the session and the API key as they are and calls no
    collaborator. *)
Theorem launcher_only_renders (launch_clicked : bool) (st : script_state) :
  fst (streamlit_app launch_clicked st) = Ok tt /\
  session (snd (streamlit_app launch_clicked st)) = session st /\
  environ_OPENAI_API_KEY (snd (streamlit_app launch_clicked st))
    = environ_OPENAI_API_KEY st /\
  exists evs,
    trace (snd (streamlit_app launch_clicked st)) = trace st ++ evs /\
    forallb is_render evs = true /\
    length evs = if launch_clicked then 3 else 1.
Proof.
  unfold streamlit_app. unfold_statements.
  destruct launch_clicked; simpl; repeat split; eexists;
    (split; [rewrite <- ?app_assoc; reflexivity | split; reflexivity]).
Qed.
